(** * Node-RED performance monitor: the metrics collection core

    A shallow embedding of [performance-monitor.js] (the v1.1.0 backend that
    uses only native Node.js APIs) and the properties of its container
    detector, samplers, metrics cache and settings handler.

    Conventions of the embedding.
    - Module-level and closure variables of the plugin ([containerInfo],
      [settings], [lastCpuUsage], [lastCpuTime], [lastCpuTimes],
      [eventLoopLag], [metricsCache]) are the fields of one [state] record
      that every function threads explicitly.
    - Everything a function reads from the operating system or the Node.js
      runtime during one call is a field of a [world] record.
    - A JavaScript number is a [number]: NaN, a signed infinity, or a finite
      value held as a rational in lowest terms.  Finite arithmetic is exact:
      the rounding of binary64 and the negative zero are outside the model.
      Byte counts, tick counts and clock readings are integers of the
      platform and enter as [Z].
    - Strings are byte strings; white space is the ASCII white space. *)

From Stdlib Require Import ZArith QArith Qround Qminmax Lia Bool List String Ascii.
From Stdlib Require Import DecimalString.
From Stdlib Require Qcanon.
From Stdlib Require DecimalPos.
From stdpp Require Import base option gmap strings.
Import ListNotations.

Local Open Scope string_scope.
Local Open Scope Z_scope.

(* ================================================================== *)
(** ** JavaScript numbers *)

Module JsNum.

Inductive number : Type :=
| NaN
| Infinity (neg : bool)
| Num (q : Q).

Definition fin (q : Q) : number := Num (Qred q).
Definition ofZ (z : Z) : number := Num (inject_Z z).

Definition Qneg (q : Q) : bool :=
  match (q ?= 0)%Q with Lt => true | _ => false end.

(** [x + y] *)
Definition add (x y : number) : number :=
  match x, y with
  | NaN, _ | _, NaN => NaN
  | Infinity a, Infinity b => if Bool.eqb a b then Infinity a else NaN
  | Infinity a, Num _ => Infinity a
  | Num _, Infinity b => Infinity b
  | Num p, Num q => fin (p + q)
  end.

(** [-x] *)
Definition neg (x : number) : number :=
  match x with
  | NaN => NaN
  | Infinity a => Infinity (negb a)
  | Num q => fin (- q)
  end.

(** [x - y] *)
Definition sub (x y : number) : number := add x (neg y).

(** [x * y] *)
Definition mul (x y : number) : number :=
  match x, y with
  | NaN, _ | _, NaN => NaN
  | Infinity a, Infinity b => Infinity (xorb a b)
  | Infinity a, Num q | Num q, Infinity a =>
      match (q ?= 0)%Q with
      | Eq => NaN
      | Gt => Infinity a
      | Lt => Infinity (negb a)
      end
  | Num p, Num q => fin (p * q)
  end.

(** [x / y]: a finite non-zero value over zero is an infinity, zero over
    zero is NaN. *)
Definition div (x y : number) : number :=
  match x, y with
  | NaN, _ | _, NaN => NaN
  | Infinity _, Infinity _ => NaN
  | Infinity a, Num q => Infinity (xorb a (Qneg q))
  | Num _, Infinity _ => Num 0
  | Num p, Num q =>
      match (q ?= 0)%Q with
      | Eq => match (p ?= 0)%Q with
              | Eq => NaN
              | Gt => Infinity false
              | Lt => Infinity true
              end
      | _ => fin (p / q)
      end
  end.

(** The order of two numbers; [None] when one of them is NaN, which makes
    every relational operator answer false. *)
Definition compare (x y : number) : option comparison :=
  match x, y with
  | NaN, _ | _, NaN => None
  | Infinity a, Infinity b =>
      Some (if a then (if b then Eq else Lt) else (if b then Gt else Eq))
  | Infinity a, Num _ => Some (if a then Lt else Gt)
  | Num _, Infinity b => Some (if b then Gt else Lt)
  | Num p, Num q => Some (p ?= q)%Q
  end.

(** [x < y], [x <= y], [x > y] *)
Definition lt (x y : number) : bool :=
  match compare x y with Some Lt => true | _ => false end.
Definition le (x y : number) : bool :=
  match compare x y with Some Lt | Some Eq => true | _ => false end.
Definition gt (x y : number) : bool := lt y x.

(** [Math.max(x, y)] and [Math.min(x, y)]: NaN if either argument is. *)
Definition max (x y : number) : number :=
  match compare x y with
  | None => NaN
  | Some Lt => y
  | Some _ => x
  end.

Definition min (x y : number) : number :=
  match compare x y with
  | None => NaN
  | Some Gt => y
  | Some _ => x
  end.

(** [Math.round(x)]: the nearest integer, a tie going up. *)
Definition round (x : number) : number :=
  match x with
  | Num q => ofZ (Qfloor (q + (1 # 2)))
  | _ => x
  end.

(** A number in a condition: NaN and zero are falsy. *)
Definition truthy (x : number) : bool :=
  match x with
  | NaN => false
  | Infinity _ => true
  | Num q => negb (Qeq_bool q 0)
  end.

(** [lo <= x <= hi] for a number that is not NaN. *)
Definition between (lo hi : Q) (x : number) : Prop :=
  match x with
  | Num q => (lo <= q /\ q <= hi)%Q
  | _ => False
  end.

End JsNum.
Import JsNum.

(* ================================================================== *)
(** ** String built-ins *)

Module JsStr.

(** White space and line terminators within ASCII: TAB, LF, VT, FF, CR, SP. *)
Definition is_space (c : ascii) : bool :=
  let n := N_of_ascii c in
  ((9 <=? n) && (n <=? 13) || (n =? 32))%N.

Definition is_digit (c : ascii) : bool :=
  let n := N_of_ascii c in ((48 <=? n) && (n <=? 57))%N.

(** The value of a character as a digit in radixes up to 36. *)
Definition digit_val (c : ascii) : option Z :=
  let n := Z.of_N (N_of_ascii c) in
  if (48 <=? n) && (n <=? 57) then Some (n - 48)
  else if (97 <=? n) && (n <=? 122) then Some (n - 87)
  else if (65 <=? n) && (n <=? 90) then Some (n - 55)
  else None.

Fixpoint trimStart (s : string) : string :=
  match s with
  | String c s' => if is_space c then trimStart s' else s
  | EmptyString => s
  end.

Fixpoint rev_string (s acc : string) : string :=
  match s with
  | String c s' => rev_string s' (String c acc)
  | EmptyString => acc
  end.

Definition trimEnd (s : string) : string :=
  rev_string (trimStart (rev_string s "")) "".

(** [s.trim()] *)
Definition trim (s : string) : string := trimEnd (trimStart s).

(** [s.split(' ')] *)
Fixpoint split_space (s : string) (cur : string) : list string :=
  match s with
  | String c s' =>
      if Ascii.eqb c " "%char then rev_string cur "" :: split_space s' ""
      else split_space s' (String c cur)
  | EmptyString => [rev_string cur ""]
  end.

Definition split (s : string) : list string := split_space s "".

(** The longest prefix of radix-[R] digits, as a value; [None] when the
    prefix is empty. *)
Fixpoint digits (R : Z) (s : string) (acc : option Z) : option Z :=
  match s with
  | String c s' =>
      match digit_val c with
      | Some d =>
          if d <? R then digits R s' (Some (default 0 acc * R + d)) else acc
      | None => acc
      end
  | EmptyString => acc
  end.

(** [parseInt(s, radix)]; [radix = None] is the call with one argument,
    where a [0x] prefix selects radix 16. *)
Definition parseInt (s : string) (radix : option Z) : number :=
  let s := trimStart s in
  let '(sign, s) :=
    match s with
    | String "-"%char s' => (-1, s')
    | String "+"%char s' => (1, s')
    | _ => (1, s)
    end in
  let '(R, s) :=
    match radix, s with
    | None, String "0"%char (String "x"%char s')
    | None, String "0"%char (String "X"%char s') => (16, s')
    | None, _ => (10, s)
    | Some r, _ => (r, s)
    end in
  match digits R s None with
  | Some n => ofZ (sign * n)
  | None => NaN
  end.

(** [String(z)] for an integer. *)
Definition ofInt (z : Z) : string := NilZero.string_of_int (Z.to_int z).

(** The regular expressions of the source are a literal, then runs of white
    space ([\s+]) and one captured run of digits ([(\d+)]) between literals.
    Neighbouring items never share a character, so the greedy left-to-right
    match below is the match a backtracking engine finds. *)
Inductive item : Type :=
| Lit (s : string)
| Spaces
| Digits.

Fixpoint strip_prefix (p s : string) : option string :=
  match p, s with
  | EmptyString, _ => Some s
  | String a p', String b s' => if Ascii.eqb a b then strip_prefix p' s' else None
  | String _ _, EmptyString => None
  end.

(** The run of characters satisfying [f] at the head of [s], and the rest. *)
Fixpoint span (f : ascii -> bool) (s : string) : string * string :=
  match s with
  | String c s' =>
      if f c then let '(r, t) := span f s' in (String c r, t) else ("", s)
  | EmptyString => ("", "")
  end.

(** The same for a run that must not be empty. *)
Definition span1 (f : ascii -> bool) (s : string) : option (string * string) :=
  match span f s with
  | (EmptyString, _) => None
  | rt => Some rt
  end.

(** Match the items at the head of [s]; the result is the capture. *)
Fixpoint match_here (re : list item) (s : string) (cap : string) : option string :=
  match re with
  | [] => Some cap
  | Lit p :: re' =>
      match strip_prefix p s with
      | Some t => match_here re' t cap
      | None => None
      end
  | Spaces :: re' =>
      match span1 is_space s with
      | Some (_, t) => match_here re' t cap
      | None => None
      end
  | Digits :: re' =>
      match span1 is_digit s with
      | Some (d, t) => match_here re' t d
      | None => None
      end
  end.

(** [s.match(re)] for a regular expression without the global flag: the
    leftmost match; the result is the first capture group. *)
Fixpoint match_re (re : list item) (s : string) : option string :=
  match match_here re s "" with
  | Some cap => Some cap
  | None =>
      match s with
      | String _ s' => match_re re s'
      | EmptyString => None
      end
  end.

End JsStr.
Import JsStr.

(* ================================================================== *)
(** ** What the runtime and the operating system supply *)

(** The outcome of a call that may throw. *)
Inductive res (A : Type) : Type :=
| Throws (msg : string)
| Ok (a : A).
Arguments Throws {A} msg.
Arguments Ok {A} a.

(** A path of the file system: a readable file, a directory, or a file
    that exists and cannot be read. *)
Inductive fnode : Type :=
| File (content : string)
| Dir
| NoAccess.

Record cpu_times : Type := {
  t_user : Z; t_nice : Z; t_sys : Z; t_idle : Z; t_irq : Z
}.

(** An entry of [os.cpus()]. *)
Record cpu : Type := { model : string; speed : Z; times : cpu_times }.

(** [process.cpuUsage()], in microseconds. *)
Record cpu_usage : Type := { user : Z; system : Z }.

(** [process.memoryUsage()]; older runtimes have no [arrayBuffers]. *)
Record memory_usage : Type := {
  rss : Z; heapTotal : Z; heapUsed : Z; external : Z;
  arrayBuffers : option Z
}.

(** The [stats] that [fs.statfs] hands to its callback. *)
Record statfs_stats : Type := {
  blocks : Z; bsize : Z; bfree : Z; bavail : Z
}.

(** [fs.statfs]: not a function of this runtime, or a call whose callback
    receives an error (or no [stats]), or [stats]. *)
Inductive statfs_prim : Type :=
| StatfsMissing
| StatfsError
| StatfsOk (stats : statfs_stats).

Record world : Type := {
  Date_now : Z;
  os_platform : string;
  os_arch : string;
  os_totalmem : Z;
  os_freemem : Z;
  os_cpus : res (list cpu);
  os_uptime : number;
  fs : gmap string fnode;
  fs_statfs : statfs_prim;
  exec_vm_stat : res string;
  process_memoryUsage : res memory_usage;
  (* the two readings that one call of getCpuPercent takes *)
  process_cpuUsage : cpu_usage;
  process_hrtime : Z;
  process_cpuUsage_after : cpu_usage;
  process_hrtime_after : Z;
  process_pid : Z;
  process_uptime : number;
  process_version : string
}.

Definition existsSync (w : world) (p : string) : bool :=
  match fs w !! p with Some _ => true | None => false end.

Definition readFileSync (w : world) (p : string) : res string :=
  match fs w !! p with
  | Some (File s) => Ok s
  | Some Dir => Throws "EISDIR"
  | Some NoAccess => Throws "EACCES"
  | None => Throws "ENOENT"
  end.

(* ================================================================== *)
(** ** The state of the plugin *)

Inductive cgroup : Type := V1 | V2.

Record ContainerInfo : Type := {
  isContainerized : bool;
  cgroupVersion : option cgroup;
  memoryLimit : option number;
  cpuLimit : option number
}.

(** A value of a JSON request body or of a settings field: [null], a
    boolean, an integer literal (below 10^21 in size, where [String] prints
    the decimal numeral) or a string.  A key without a value is a key that
    the body does not have. *)
Inductive jsval : Type :=
| JNull
| JBool (b : bool)
| JNumber (z : Z)
| JString (s : string).

Record Settings : Type := {
  refreshInterval : number;
  paneFontSize : number;
  paneFontFamily : jsval;
  hudSize : jsval;
  hudTheme : jsval;
  hideHud : bool
}.

Record memory_block : Type := {
  m_total : number;
  m_used : number;
  m_free : number;
  m_available : number;
  m_usedPercent : number
}.

(** The zeroed default of getDiskUsage has no [free] field. *)
Record disk_block : Type := {
  d_mount : string;
  d_total : number;
  d_used : number;
  d_free : option number;
  d_available : number;
  d_usedPercent : number
}.

Record cpu_info : Type := {
  cores : Z;
  effectiveCores : number;
  c_model : string;
  c_speed : Z
}.

Record metrics : Type := {
  timestamp : Z;
  mx_isContainerized : bool;
  sys_platform : string;
  sys_arch : string;
  sys_nodeVersion : string;
  sys_cpu_percent : number;
  sys_cpu : cpu_info;
  sys_memory : memory_block;
  sys_disk : disk_block;
  sys_uptime : number;
  nr_pid : Z;
  nr_uptime : number;
  nr_cpu : number;
  nr_rss : Z;
  nr_heapTotal : Z;
  nr_heapUsed : Z;
  nr_external : Z;
  nr_arrayBuffers : Z;
  nr_percentOfSystem : number;
  nr_eventLoopLag : number
}.

Record cache : Type := { data : option metrics; c_timestamp : Z }.

Record state : Type := {
  containerInfo : option ContainerInfo;
  settings : Settings;
  lastCpuUsage : cpu_usage;
  lastCpuTime : Z;
  lastCpuTimes : option (Z * Z);   (* idle, total *)
  eventLoopLag : number;
  metricsCache : cache
}.

Definition set_containerInfo (ci : option ContainerInfo) (st : state) : state :=
  {| containerInfo := ci; settings := settings st;
     lastCpuUsage := lastCpuUsage st; lastCpuTime := lastCpuTime st;
     lastCpuTimes := lastCpuTimes st; eventLoopLag := eventLoopLag st;
     metricsCache := metricsCache st |}.


Definition set_cpuBaseline (u : cpu_usage) (t : Z) (st : state) : state :=
  {| containerInfo := containerInfo st; settings := settings st;
     lastCpuUsage := u; lastCpuTime := t;
     lastCpuTimes := lastCpuTimes st; eventLoopLag := eventLoopLag st;
     metricsCache := metricsCache st |}.

Definition set_lastCpuTimes (t : option (Z * Z)) (st : state) : state :=
  {| containerInfo := containerInfo st; settings := settings st;
     lastCpuUsage := lastCpuUsage st; lastCpuTime := lastCpuTime st;
     lastCpuTimes := t; eventLoopLag := eventLoopLag st;
     metricsCache := metricsCache st |}.

Definition set_metricsCache (c : cache) (st : state) : state :=
  {| containerInfo := containerInfo st; settings := settings st;
     lastCpuUsage := lastCpuUsage st; lastCpuTime := lastCpuTime st;
     lastCpuTimes := lastCpuTimes st; eventLoopLag := eventLoopLag st;
     metricsCache := c |}.

(** The free variables of the module when it is loaded. *)
Definition default_settings : Settings :=
  {| refreshInterval := ofZ 2000;
     paneFontSize := ofZ 12;
     paneFontFamily := JString "Helvetica Neue";
     hudSize := JString "Normal";
     hudTheme := JString "classic";
     hideHud := false |}.

Definition initial_state (w : world) : state :=
  {| containerInfo := None;
     settings := default_settings;
     lastCpuUsage := process_cpuUsage w;
     lastCpuTime := process_hrtime w;
     lastCpuTimes := None;
     eventLoopLag := ofZ 0;
     metricsCache := {| data := None; c_timestamp := 0 |} |}.

(* ================================================================== *)
(** ** Container detection *)

Definition CGROUP_V2_memoryMax := "/sys/fs/cgroup/memory.max".
Definition CGROUP_V2_memoryCurrent := "/sys/fs/cgroup/memory.current".
Definition CGROUP_V2_cpuMax := "/sys/fs/cgroup/cpu.max".
Definition CGROUP_V1_memoryLimit := "/sys/fs/cgroup/memory/memory.limit_in_bytes".
Definition CGROUP_V1_memoryUsage := "/sys/fs/cgroup/memory/memory.usage_in_bytes".
Definition CGROUP_V1_cpuQuota := "/sys/fs/cgroup/cpu/cpu.cfs_quota_us".
Definition CGROUP_V1_cpuPeriod := "/sys/fs/cgroup/cpu/cpu.cfs_period_us".

Definition MAX_MEMORY_LIMIT : number := ofZ 9223372036854771712.

(** The probe fills the [containerInfo] object in place inside one
    [try] block: a step may throw, and what was written before it stays. *)
Module Probe.

Definition D (A : Type) : Type := ContainerInfo -> res A * ContainerInfo.

Definition ret {A} (a : A) : D A := fun ci => (Ok a, ci).

Definition bind {A B} (m : D A) (k : A -> D B) : D B :=
  fun ci =>
    match m ci with
    | (Ok a, ci') => k a ci'
    | (Throws e, ci') => (Throws e, ci')
    end.

Definition lift {A} (r : res A) : D A := fun ci => (r, ci).
Definition get : D ContainerInfo := fun ci => (Ok ci, ci).
Definition modify (f : ContainerInfo -> ContainerInfo) : D unit :=
  fun ci => (Ok tt, f ci).
Definition when (b : bool) (m : D unit) : D unit := if b then m else ret tt.

Declare Scope probe_scope.
Delimit Scope probe_scope with probe.
Notation "x <- m ;; k" := (bind m (fun x => k))
  (at level 100, m at next level, right associativity) : probe_scope.
Notation "m ;;; k" := (bind m (fun _ => k))
  (at level 100, k at level 200, right associativity) : probe_scope.

(** The three assignments of a memory limit that was accepted. *)
Definition accept_memory (v : cgroup) (memLimit : number) (ci : ContainerInfo)
  : ContainerInfo :=
  {| isContainerized := true;
     cgroupVersion := Some v;
     memoryLimit := Some memLimit;
     cpuLimit := cpuLimit ci |}.

(** The two assignments of a CPU limit that was accepted. *)
Definition accept_cpu (limit : number) (ci : ContainerInfo) : ContainerInfo :=
  {| isContainerized := true;
     cgroupVersion := cgroupVersion ci;
     memoryLimit := memoryLimit ci;
     cpuLimit := Some limit |}.

Definition mark_containerized (ci : ContainerInfo) : ContainerInfo :=
  {| isContainerized := true;
     cgroupVersion := cgroupVersion ci;
     memoryLimit := memoryLimit ci;
     cpuLimit := cpuLimit ci |}.

Local Open Scope probe_scope.

Definition cgroup_v2 (w : world) : D unit :=
  memMax <- lift (readFileSync w CGROUP_V2_memoryMax) ;;
  let memMax := trim memMax in
  when (negb (String.eqb memMax "max"))
    (let memLimit := parseInt memMax (Some 10) in
     when (gt memLimit (ofZ 0) && lt memLimit (ofZ (os_totalmem w)))
       (modify (accept_memory V2 memLimit))) ;;;
  when (existsSync w CGROUP_V2_cpuMax)
    (cpuMax <- lift (readFileSync w CGROUP_V2_cpuMax) ;;
     let parts := split (trim cpuMax) in
     match parts with
     | [p0; p1] =>
         when (negb (String.eqb p0 "max"))
           (let quota := parseInt p0 (Some 10) in
            let period := parseInt p1 (Some 10) in
            when (gt quota (ofZ 0) && gt period (ofZ 0))
              (modify (accept_cpu (div quota period))))
     | _ => ret tt
     end).

Definition cgroup_v1 (w : world) : D unit :=
  raw <- lift (readFileSync w CGROUP_V1_memoryLimit) ;;
  let memLimit := parseInt (trim raw) (Some 10) in
  when (gt memLimit (ofZ 0) && lt memLimit MAX_MEMORY_LIMIT
        && lt memLimit (ofZ (os_totalmem w)))
    (modify (accept_memory V1 memLimit)) ;;;
  when (existsSync w CGROUP_V1_cpuQuota && existsSync w CGROUP_V1_cpuPeriod)
    (rawq <- lift (readFileSync w CGROUP_V1_cpuQuota) ;;
     let quota := parseInt (trim rawq) (Some 10) in
     rawp <- lift (readFileSync w CGROUP_V1_cpuPeriod) ;;
     let period := parseInt (trim rawp) (Some 10) in
     when (gt quota (ofZ 0) && gt period (ofZ 0))
       (modify (accept_cpu (div quota period)))).

(** The body of the [try] block. *)
Definition probe (w : world) : D unit :=
  (if existsSync w CGROUP_V2_memoryMax then cgroup_v2 w
   else if existsSync w CGROUP_V1_memoryLimit then cgroup_v1 w
   else ret tt) ;;;
  ci <- get ;;
  when (negb (isContainerized ci))
    (when (existsSync w "/.dockerenv"
           || existsSync w "/var/run/secrets/kubernetes.io")
       (modify mark_containerized)).

End Probe.

Definition unconfined : ContainerInfo :=
  {| isContainerized := false;
     cgroupVersion := None;
     memoryLimit := None;
     cpuLimit := None |}.

(** The record a first call computes: off Linux the initial one, on Linux
    whatever the probe left in it, whether it threw or not. *)
Definition detect (w : world) : ContainerInfo :=
  if negb (String.eqb (os_platform w) "linux") then unconfined
  else snd (Probe.probe w unconfined).

Definition detectContainerEnvironment (w : world) (st : state)
  : ContainerInfo * state :=
  match containerInfo st with
  | Some ci => (ci, st)
  | None => let ci := detect w in (ci, set_containerInfo (Some ci) st)
  end.

(** [!x] for a field that holds [null] or a number. *)
Definition falsy (x : option number) : bool :=
  match x with
  | Some n => negb (truthy n)
  | None => true
  end.

Definition getContainerMemory (w : world) (st : state)
  : option memory_block * state :=
  let '(info, st) := detectContainerEnvironment w st in
  if negb (isContainerized info) || falsy (memoryLimit info) then (None, st)
  else
    let limit := default NaN (memoryLimit info) in
    let currentUsage : res number :=
      match cgroupVersion info with
      | Some V2 =>
          if existsSync w CGROUP_V2_memoryCurrent then
            match readFileSync w CGROUP_V2_memoryCurrent with
            | Ok s => Ok (parseInt (trim s) (Some 10))
            | Throws e => Throws e
            end
          else Ok (ofZ 0)
      | Some V1 =>
          if existsSync w CGROUP_V1_memoryUsage then
            match readFileSync w CGROUP_V1_memoryUsage with
            | Ok s => Ok (parseInt (trim s) (Some 10))
            | Throws e => Throws e
            end
          else Ok (ofZ 0)
      | None => Ok (ofZ 0)
      end in
    match currentUsage with
    | Ok currentUsage =>
        (Some {| m_total := limit;
                 m_used := currentUsage;
                 m_free := max (ofZ 0) (sub limit currentUsage);
                 m_available := max (ofZ 0) (sub limit currentUsage);
                 m_usedPercent :=
                   div (round (mul (div currentUsage limit) (ofZ 1000)))
                       (ofZ 10) |}, st)
    | Throws _ => (None, st)
    end.

(** [info.cpuLimit || null] *)
Definition getContainerCpuLimit (w : world) (st : state)
  : option number * state :=
  let '(info, st) := detectContainerEnvironment w st in
  (if falsy (cpuLimit info) then None else cpuLimit info, st).

(* ================================================================== *)
(** ** Samplers *)

(** [Math.min(Math.max(x, 0), 100)] *)
Definition clamp_percent (x : number) : number :=
  min (max x (ofZ 0)) (ofZ 100).

Definition getCpuPercent (w : world) (st : state) : number * state :=
  let currentCpuUsage :=
    {| user := user (process_cpuUsage w) - user (lastCpuUsage st);
       system := system (process_cpuUsage w) - system (lastCpuUsage st) |} in
  let currentTime := process_hrtime w in
  let elapsedMs := div (ofZ (currentTime - lastCpuTime st)) (ofZ 1000000) in
  if le elapsedMs (ofZ 0) then (ofZ 0, st)
  else
    let totalCpuMicros :=
      add (ofZ (user currentCpuUsage)) (ofZ (system currentCpuUsage)) in
    let cpuPercent :=
      mul (div (div totalCpuMicros (ofZ 1000)) elapsedMs) (ofZ 100) in
    let st := set_cpuBaseline (process_cpuUsage_after w)
                              (process_hrtime_after w) st in
    (clamp_percent cpuPercent, st).

Definition re_MemAvailable : list item :=
  [Lit "MemAvailable:"; Spaces; Digits; Spaces; Lit "kB"].
Definition re_page_size : list item :=
  [Lit "page size of "; Digits; Lit " bytes"].
Definition re_pages (what : string) : list item :=
  [Lit ("Pages " ++ what ++ ":"); Spaces; Digits; Lit "."].

(** [parseInt((stdout.match(re) || [0, 0])[1], 10)] *)
Definition pages (what stdout : string) : number :=
  match match_re (re_pages what) stdout with
  | Some d => parseInt d (Some 10)
  | None => parseInt (ofInt 0) (Some 10)
  end.

(** The free memory of the host after the refinement of the platform. *)
Definition host_freeMem (w : world) : number :=
  let freeMem := ofZ (os_freemem w) in
  if String.eqb (os_platform w) "linux" then
    match readFileSync w "/proc/meminfo" with
    | Ok info =>
        match match_re re_MemAvailable info with
        | Some d => mul (parseInt d (Some 10)) (ofZ 1024)
        | None => freeMem
        end
    | Throws _ => freeMem
    end
  else if String.eqb (os_platform w) "darwin" then
    match exec_vm_stat w with
    | Ok stdout =>
        let pageSize :=
          match match_re re_page_size stdout with
          | Some d => parseInt d (Some 10)
          | None => ofZ 4096
          end in
        let freePages := pages "free" stdout in
        let inactivePages := pages "inactive" stdout in
        let speculativePages := pages "speculative" stdout in
        mul (add (add freePages inactivePages) speculativePages) pageSize
    | Throws _ => freeMem
    end
  else freeMem.

Definition getSystemMemory (w : world) (st : state) : memory_block * state :=
  match getContainerMemory w st with
  | (Some containerMem, st) => (containerMem, st)
  | (None, st) =>
      let totalMem := ofZ (os_totalmem w) in
      let freeMem := host_freeMem w in
      let usedMem := max (ofZ 0) (sub totalMem freeMem) in
      ({| m_total := totalMem;
          m_used := usedMem;
          m_free := freeMem;
          m_available := freeMem;
          m_usedPercent :=
            div (round (mul (div usedMem totalMem) (ofZ 1000))) (ofZ 10) |},
       st)
  end.

Definition defaultDisk : disk_block :=
  {| d_mount := "/";
     d_total := ofZ 0;
     d_used := ofZ 0;
     d_free := None;
     d_available := ofZ 0;
     d_usedPercent := ofZ 0 |}.

Definition getDiskUsage (w : world) : disk_block :=
  match fs_statfs w with
  | StatfsMissing => defaultDisk
  | StatfsError => defaultDisk
  | StatfsOk stats =>
      let mountPoint :=
        if String.eqb (os_platform w) "win32" then "C:\" else "/" in
      let total := mul (ofZ (blocks stats)) (ofZ (bsize stats)) in
      let free := mul (ofZ (bfree stats)) (ofZ (bsize stats)) in
      let available := mul (ofZ (bavail stats)) (ofZ (bsize stats)) in
      let used := sub total free in
      {| d_mount := mountPoint;
         d_total := total;
         d_used := used;
         d_free := Some available;
         d_available := available;
         d_usedPercent :=
           if gt total (ofZ 0)
           then div (round (mul (div used total) (ofZ 1000))) (ofZ 10)
           else ofZ 0 |}
  end.

(* ================================================================== *)
(** ** The aggregator *)

(** A computation over the state that may throw; the state written before
    the throw stays. *)
Definition M (A : Type) : Type := state -> res A * state.

Definition mret {A} (a : A) : M A := fun st => (Ok a, st).

Definition mbind {A B} (m : M A) (k : A -> M B) : M B :=
  fun st =>
    match m st with
    | (Ok a, st') => k a st'
    | (Throws e, st') => (Throws e, st')
    end.

Definition call {A} (r : res A) : M A := fun st => (r, st).
Definition run {A} (f : state -> A * state) : M A :=
  fun st => let '(a, st') := f st in (Ok a, st').
Definition gets {A} (f : state -> A) : M A := fun st => (Ok (f st), st).
Definition puts (f : state -> state) : M unit := fun st => (Ok tt, f st).

Declare Scope agg_scope.
Delimit Scope agg_scope with agg.
Notation "x <- m ;; k" := (mbind m (fun x => k))
  (at level 100, m at next level, right associativity) : agg_scope.
Notation "m ;;; k" := (mbind m (fun _ => k))
  (at level 100, k at level 200, right associativity) : agg_scope.

Local Open Scope agg_scope.

Definition getCpuInfo (w : world) : M cpu_info :=
  cpus <- call (os_cpus w) ;;
  containerCpuLimit <- run (getContainerCpuLimit w) ;;
  let len := Z.of_nat (length cpus) in
  mret {| cores := len;
          effectiveCores := default (ofZ len) containerCpuLimit;
          c_model := match cpus with c :: _ => model c | [] => "Unknown" end;
          c_speed := match cpus with c :: _ => speed c | [] => 0 end |}.

Definition ticks (t : cpu_times) : Z :=
  t_user t + t_nice t + t_sys t + t_idle t + t_irq t.

Definition getSystemCpuUsage (w : world) : M number :=
  cpus <- call (os_cpus w) ;;
  let totalTick := fold_left (fun acc c => acc + ticks (times c)) cpus 0 in
  let totalIdle := fold_left (fun acc c => acc + t_idle (times c)) cpus 0 in
  last <- gets lastCpuTimes ;;
  let percentage :=
    match last with
    | Some (idle, total) =>
        let idleDifference := ofZ (totalIdle - idle) in
        let totalDifference := ofZ (totalTick - total) in
        if gt totalDifference (ofZ 0)
        then sub (ofZ 100)
                 (div (mul (ofZ 100) idleDifference) totalDifference)
        else ofZ 0
    | None => ofZ 0
    end in
  puts (set_lastCpuTimes (Some (totalIdle, totalTick))) ;;;
  mret (max (ofZ 0) (min percentage (ofZ 100))).

(** What a caller of collectMetrics receives: a snapshot, or the object
    that has only an [error] field. *)
Inductive response : Type :=
| Snapshot (m : metrics)
| ErrorObject (err : string).

(** The body of the [try] block, the cache update included. *)
Definition assemble (w : world) (now : Z) : M metrics :=
  memoryUsage <- call (process_memoryUsage w) ;;
  systemMemory <- run (getSystemMemory w) ;;
  cpuPercent <- run (getCpuPercent w) ;;
  cpuInfo <- getCpuInfo w ;;
  let diskUsage := getDiskUsage w in
  systemCpuPercent <- getSystemCpuUsage w ;;
  containerEnv <- run (detectContainerEnvironment w) ;;
  lag <- gets eventLoopLag ;;
  let metrics :=
    {| timestamp := now;
       mx_isContainerized := isContainerized containerEnv;
       sys_platform := os_platform w;
       sys_arch := os_arch w;
       sys_nodeVersion := process_version w;
       sys_cpu_percent := div (round (mul systemCpuPercent (ofZ 10))) (ofZ 10);
       sys_cpu := cpuInfo;
       sys_memory := systemMemory;
       sys_disk := diskUsage;
       sys_uptime := os_uptime w;
       nr_pid := process_pid w;
       nr_uptime := process_uptime w;
       nr_cpu := div (round (mul cpuPercent (ofZ 10))) (ofZ 10);
       nr_rss := rss memoryUsage;
       nr_heapTotal := heapTotal memoryUsage;
       nr_heapUsed := heapUsed memoryUsage;
       nr_external := external memoryUsage;
       nr_arrayBuffers := default 0 (arrayBuffers memoryUsage);
       nr_percentOfSystem :=
         mul (div (ofZ (rss memoryUsage)) (m_total systemMemory)) (ofZ 100);
       nr_eventLoopLag := div (round (mul lag (ofZ 100))) (ofZ 100) |} in
  puts (set_metricsCache {| data := Some metrics; c_timestamp := now |}) ;;;
  mret metrics.

(** The test of the fast path:
    [metricsCache.data && (now - metricsCache.timestamp) < (settings.refreshInterval / 2)] *)
Definition cache_hit (now : Z) (st : state) : option metrics :=
  match data (metricsCache st) with
  | Some d =>
      if lt (sub (ofZ now) (ofZ (c_timestamp (metricsCache st))))
            (div (refreshInterval (settings st)) (ofZ 2))
      then Some d else None
  | None => None
  end.

(** One call of collectMetrics that runs to its end before the next one
    starts.  The message for [RED.log.error] goes to the host and is not
    part of the state. *)
Definition collectMetrics (w : world) (st : state) : response * state :=
  let now := Date_now w in
  match cache_hit now st with
  | Some d => (Snapshot d, st)
  | None =>
      match assemble w now st with
      | (Ok metrics, st') => (Snapshot metrics, st')
      | (Throws message, st') =>
          (match data (metricsCache st') with
           | Some d => Snapshot d
           | None => ErrorObject message
           end, st')
      end
  end.

(* ================================================================== *)
(** ** The settings handler *)

(** [String(v)] *)
Definition toString (v : jsval) : string :=
  match v with
  | JNull => "null"
  | JBool true => "true"
  | JBool false => "false"
  | JNumber z => ofInt z
  | JString s => s
  end.

(** A value in a condition. *)
Definition truthy_val (v : jsval) : bool :=
  match v with
  | JNull => false
  | JBool b => b
  | JNumber z => negb (z =? 0)
  | JString s => negb (String.eqb s "")
  end.

(** [parseInt(v) || d] *)
Definition parseInt_or (v : jsval) (d : Z) : number :=
  let n := parseInt (toString v) None in
  if truthy n then n else ofZ d.

(** [v || d] *)
Definition val_or (v : jsval) (d : string) : jsval :=
  if truthy_val v then v else JString d.

(** The body of [POST /performance-monitor/settings]: each [if] of the
    handler in turn; the handler answers with the settings it leaves. *)
Definition update_settings (body : gmap string jsval) (s : Settings) : Settings :=
  {| refreshInterval :=
       match body !! "refreshInterval" with
       | Some v => parseInt_or v 2000
       | None => refreshInterval s
       end;
     paneFontSize :=
       match body !! "paneFontSize" with
       | Some v => parseInt_or v 12
       | None => paneFontSize s
       end;
     paneFontFamily :=
       match body !! "paneFontFamily" with
       | Some v => val_or v "Helvetica Neue"
       | None => paneFontFamily s
       end;
     hudSize :=
       match body !! "hudSize" with
       | Some v => val_or v "Normal"
       | None => hudSize s
       end;
     hudTheme :=
       match body !! "hudTheme" with
       | Some v => val_or v "classic"
       | None => hudTheme s
       end;
     hideHud :=
       match body !! "hideHud" with
       | Some v => truthy_val v
       | None => hideHud s
       end |}.


(* ================================================================== *)
(** ** The lag probe and the hooks exported for testing *)

Definition set_eventLoopLag (lag : number) (st : state) : state :=
  {| containerInfo := containerInfo st; settings := settings st;
     lastCpuUsage := lastCpuUsage st; lastCpuTime := lastCpuTime st;
     lastCpuTimes := lastCpuTimes st; eventLoopLag := lag;
     metricsCache := metricsCache st |}.


Definition getEventLoopLag (st : state) : number := eventLoopLag st.

Definition setEventLoopLag (val : number) (st : state) : state :=
  set_eventLoopLag val st.

Definition resetCpuBaseline (w : world) (st : state) : state :=
  set_cpuBaseline (process_cpuUsage w) (process_hrtime w) st.

Definition resetContainerInfo (st : state) : state :=
  set_containerInfo None st.

(* ================================================================== *)
(** ** Sample environments *)

Module Sample.

Definition idle_times : cpu_times :=
  {| t_user := 100; t_nice := 0; t_sys := 50; t_idle := 850; t_irq := 0 |}.

Definition four_cores : list cpu :=
  repeat {| model := "Intel Core i7"; speed := 2800; times := idle_times |} 4.

Definition GiB : Z := 1024 * 1024 * 1024.

(** The line feed that ends a file of the kernel. *)
Definition LF : string := String (Ascii.ascii_of_N 10) "".

(** A host with 16 GiB of memory, 8 GiB of it free, on which every call
    of the runtime answers. *)
Definition host (platform : string) (files : gmap string fnode)
    (statfs : statfs_prim) (now : Z) : world :=
  {| Date_now := now;
     os_platform := platform;
     os_arch := "x64";
     os_totalmem := 16 * GiB;
     os_freemem := 8 * GiB;
     os_cpus := Ok four_cores;
     os_uptime := ofZ 3600;
     fs := files;
     fs_statfs := statfs;
     exec_vm_stat := Throws "spawn vm_stat ENOENT";
     process_memoryUsage :=
       Ok {| rss := 104857600; heapTotal := 83886080; heapUsed := 62914560;
             external := 5242880; arrayBuffers := Some 2097152 |};
     process_cpuUsage := {| user := 700; system := 90 |};
     process_hrtime := 1000000000 + now * 1000000;
     process_cpuUsage_after := {| user := 701; system := 90 |};
     process_hrtime_after := 1000000000 + now * 1000000 + 2000;
     process_pid := 4242;
     process_uptime := ofZ 3600;
     process_version := "v20.11.0" |}.

(** The same environment with another answer of [process.memoryUsage],
    which the test suite makes throw, or of [os.cpus]. *)
Definition with_memoryUsage (r : res memory_usage) (w : world) : world :=
  {| Date_now := Date_now w;
     os_platform := os_platform w;
     os_arch := os_arch w;
     os_totalmem := os_totalmem w;
     os_freemem := os_freemem w;
     os_cpus := os_cpus w;
     os_uptime := os_uptime w;
     fs := fs w;
     fs_statfs := fs_statfs w;
     exec_vm_stat := exec_vm_stat w;
     process_memoryUsage := r;
     process_cpuUsage := process_cpuUsage w;
     process_hrtime := process_hrtime w;
     process_cpuUsage_after := process_cpuUsage_after w;
     process_hrtime_after := process_hrtime_after w;
     process_pid := process_pid w;
     process_uptime := process_uptime w;
     process_version := process_version w |}.

Definition with_cpus (r : res (list cpu)) (w : world) : world :=
  {| Date_now := Date_now w;
     os_platform := os_platform w;
     os_arch := os_arch w;
     os_totalmem := os_totalmem w;
     os_freemem := os_freemem w;
     os_cpus := r;
     os_uptime := os_uptime w;
     fs := fs w;
     fs_statfs := fs_statfs w;
     exec_vm_stat := exec_vm_stat w;
     process_memoryUsage := process_memoryUsage w;
     process_cpuUsage := process_cpuUsage w;
     process_hrtime := process_hrtime w;
     process_cpuUsage_after := process_cpuUsage_after w;
     process_hrtime_after := process_hrtime_after w;
     process_pid := process_pid w;
     process_uptime := process_uptime w;
     process_version := process_version w |}.

(** The same environment over another file system. *)
Definition with_fs (files : gmap string fnode) (w : world) : world :=
  {| Date_now := Date_now w;
     os_platform := os_platform w;
     os_arch := os_arch w;
     os_totalmem := os_totalmem w;
     os_freemem := os_freemem w;
     os_cpus := os_cpus w;
     os_uptime := os_uptime w;
     fs := files;
     fs_statfs := fs_statfs w;
     exec_vm_stat := exec_vm_stat w;
     process_memoryUsage := process_memoryUsage w;
     process_cpuUsage := process_cpuUsage w;
     process_hrtime := process_hrtime w;
     process_cpuUsage_after := process_cpuUsage_after w;
     process_hrtime_after := process_hrtime_after w;
     process_pid := process_pid w;
     process_uptime := process_uptime w;
     process_version := process_version w |}.

(** A Linux host whose [/proc/meminfo] reports 4 GiB available. *)
Definition meminfo : gmap string fnode :=
  {[ "/proc/meminfo" :=
       File ("MemTotal:       16777216 kB" ++ LF
             ++ "MemFree:         1048576 kB" ++ LF
             ++ "MemAvailable:    4194304 kB" ++ LF) ]}.

(** The mocked [stats] of the test suite. *)
Definition stats_of_test : statfs_stats :=
  {| blocks := 1000000; bsize := 4096; bfree := 500000; bavail := 400000 |}.

(** cgroup v2 without a memory limit and with half a core of CPU. *)
Definition v2_cpu_only : gmap string fnode :=
  {[ CGROUP_V2_memoryMax := File ("max" ++ LF);
     CGROUP_V2_cpuMax := File ("50000 100000" ++ LF) ]}.

(** cgroup v2 with a limit of 1 GiB of which [usage] is in use. *)
Definition v2_limited (usage : string) : gmap string fnode :=
  {[ CGROUP_V2_memoryMax := File ("1073741824" ++ LF);
     CGROUP_V2_memoryCurrent := File (usage ++ LF);
     CGROUP_V2_cpuMax := File ("max 100000" ++ LF) ]}.

(** cgroup v1 whose memory limit is the value that stands for no limit. *)
Definition v1_unlimited : gmap string fnode :=
  {[ CGROUP_V1_memoryLimit := File ("9223372036854771712" ++ LF) ]}.

End Sample.

(* ================================================================== *)
(** ** Vocabulary of the properties *)

Section Vocabulary.
Import Probe.
Local Open Scope Q_scope.

(** [inv P m]: whatever [m] does, and whether it throws or not, a record
    that satisfies [P] before still satisfies it after. *)
Definition inv {A} (P : ContainerInfo -> Prop) (m : D A) : Prop :=
  forall ci, P ci -> P (snd (m ci)).

(** Steps that accept a CPU limit or set the container mark preserve a
    property that does not look at those fields. *)
Definition memory_only (P : ContainerInfo -> Prop) : Prop :=
  (forall l ci, P ci -> P (accept_cpu l ci)) /\
  (forall ci, P ci -> P (mark_containerized ci)).

(** A memory limit in the record was accepted by one of the two guards,
    which also set the cgroup version and the container flag. *)
Definition accepted (w : world) (ci : ContainerInfo) : Prop :=
  forall l, memoryLimit ci = Some l ->
    (exists q, l = Num q /\ 0 < q /\ q < inject_Z (os_totalmem w))
    /\ isContainerized ci = true
    /\ cgroupVersion ci <> None.

(** [round(a / b * 1000) / 10] over the rationals. *)
Definition percent1 (a b : Z) : Q :=
  inject_Z (Qfloor (inject_Z a / inject_Z b * 1000 + (1 # 2))) / 10.

(** The block of the container path, from the limit in the record and
    the usage that was read. *)
Definition container_block (limit currentUsage : number) : memory_block :=
  {| m_total := limit;
     m_used := currentUsage;
     m_free := max (ofZ 0) (sub limit currentUsage);
     m_available := max (ofZ 0) (sub limit currentUsage);
     m_usedPercent :=
       div (round (mul (div currentUsage limit) (ofZ 1000))) (ofZ 10) |}.

(** The microseconds of CPU and the nanoseconds of wall time since the
    baseline, as one call reads them. *)
Definition delta_micros (w : world) (st : state) : Z :=
  ((user (process_cpuUsage w) - user (lastCpuUsage st))
   + (system (process_cpuUsage w) - system (lastCpuUsage st)))%Z.

Definition delta_nanos (w : world) (st : state) : Z :=
  (process_hrtime w - lastCpuTime st)%Z.

(** [(micros / 1000) / elapsedMs * 100] over the rationals. *)
Definition raw_percent (w : world) (st : state) : Q :=
  inject_Z (delta_micros w st) / 1000
  / (inject_Z (delta_nanos w st) / 1000000) * 100.

(** A computation that writes neither the cache nor the settings. *)
Definition keeps {A} (m : M A) : Prop :=
  forall st, metricsCache (snd (m st)) = metricsCache st
             /\ settings (snd (m st)) = settings st.

(** What the [try] block leaves behind: the settings as they were; after a
    throw the cache as it was, and otherwise the new snapshot, stamped
    [now], in the returned value and in the cache. *)
Definition assembled (now : Z) (st0 : state) (r : res metrics) (st' : state)
  : Prop :=
  settings st' = settings st0
  /\ match r with
     | Throws _ => metricsCache st' = metricsCache st0
     | Ok m => timestamp m = now
               /\ metricsCache st' = {| data := Some m; c_timestamp := now |}
     end.

(** A call that did not take the path of the [catch]. *)
Definition successful (w : world) (st : state) : Prop :=
  match cache_hit (Date_now w) st with
  | Some _ => True
  | None => exists m st', assemble w (Date_now w) st = (Ok m, st')
  end.

(** The snapshot in the cache carries the time stamp of the cache, which
    is not ahead of the clock. *)
Definition cache_in_past (now : Z) (st : state) : Prop :=
  forall d, data (metricsCache st) = Some d ->
    timestamp d = c_timestamp (metricsCache st)
    /\ (c_timestamp (metricsCache st) <= now)%Z.




(** The control file that holds the usage of the hierarchy of the record. *)
Definition usage_path (info : ContainerInfo) : option string :=
  match cgroupVersion info with
  | Some V2 => Some CGROUP_V2_memoryCurrent
  | Some V1 => Some CGROUP_V1_memoryUsage
  | None => None
  end.

(** Every character of the string satisfies [f]. *)
Fixpoint all_chars (f : ascii -> bool) (s : string) : bool :=
  match s with
  | String c s' => f c && all_chars f s'
  | EmptyString => true
  end.

(** A run of digits that is not empty. *)
Definition numeral (s : string) : Prop :=
  all_chars is_digit s = true /\ s <> "".


(** All ticks of getSystemCpuUsage summed over the cores. *)
Definition sum_ticks (cpus : list cpu) : Z :=
  fold_left (fun acc c => (acc + ticks (times c))%Z) cpus 0%Z.

(** The idle ticks of getSystemCpuUsage summed over the cores. *)
Definition sum_idle (cpus : list cpu) : Z :=
  fold_left (fun acc c => (acc + t_idle (times c))%Z) cpus 0%Z.

(** [Math.round(x * 10) / 10] *)
Definition round1 (x : number) : number :=
  div (round (mul x (ofZ 10))) (ofZ 10).

(** What detection answers in a state: the record it holds, or the one a
    first call computes. *)
Definition resolved (w : world) (st : state) : ContainerInfo :=
  fst (detectContainerEnvironment w st).

(** The value that a decimal numeral spells after [acc]. *)
Fixpoint uint_value (d : Decimal.uint) (acc : Z) : Z :=
  match d with
  | Decimal.Nil => acc
  | Decimal.D0 d => uint_value d (acc * 10 + 0)%Z
  | Decimal.D1 d => uint_value d (acc * 10 + 1)%Z
  | Decimal.D2 d => uint_value d (acc * 10 + 2)%Z
  | Decimal.D3 d => uint_value d (acc * 10 + 3)%Z
  | Decimal.D4 d => uint_value d (acc * 10 + 4)%Z
  | Decimal.D5 d => uint_value d (acc * 10 + 5)%Z
  | Decimal.D6 d => uint_value d (acc * 10 + 6)%Z
  | Decimal.D7 d => uint_value d (acc * 10 + 7)%Z
  | Decimal.D8 d => uint_value d (acc * 10 + 8)%Z
  | Decimal.D9 d => uint_value d (acc * 10 + 9)%Z
  end.



End Vocabulary.

(* ================================================================== *)
(** ** The model on the scenarios of the test suite *)

Section Scenarios.
Import Sample.

Example parseInt_decimal : parseInt "1073741824" (Some 10) = ofZ 1073741824.
Proof. reflexivity. Qed.

Example parseInt_stops_at_junk : parseInt "  -42px" (Some 10) = ofZ (-42).
Proof. reflexivity. Qed.

Example parseInt_max : parseInt "max" (Some 10) = NaN.
Proof. reflexivity. Qed.

Example parseInt_hex : parseInt "0x1F" None = ofZ 31.
Proof. reflexivity. Qed.

Example trim_line : trim ("  50000 100000" ++ LF) = "50000 100000".
Proof. reflexivity. Qed.

Example split_cpu_max : split "50000 100000" = ["50000"; "100000"].
Proof. reflexivity. Qed.

Example split_keeps_empty_parts : split "a  b" = ["a"; ""; "b"].
Proof. reflexivity. Qed.

Example match_MemAvailable :
  match_re re_MemAvailable
    ("MemFree:  1048576 kB" ++ LF ++ "MemAvailable:    4194304 kB" ++ LF)
  = Some "4194304".
Proof. reflexivity. Qed.

Example round_half_up : round (Num (5 # 2)) = ofZ 3 /\ round (Num (-5 # 2)) = ofZ (-2).
Proof. split; reflexivity. Qed.

(** 16 GiB of memory of which 8 GiB are free: 50 percent used. *)
Example memory_half_used :
  let w := host "win32" ∅ StatfsMissing 5000 in
  fst (getSystemMemory w (initial_state w))
  = {| m_total := ofZ (16 * GiB); m_used := ofZ (8 * GiB);
       m_free := ofZ (8 * GiB); m_available := ofZ (8 * GiB);
       m_usedPercent := ofZ 50 |}.
Proof. reflexivity. Qed.

(** On Linux, MemAvailable replaces the free memory of [os.freemem]. *)
Example memory_from_meminfo :
  let w := host "linux" meminfo StatfsMissing 5000 in
  fst (getSystemMemory w (initial_state w))
  = {| m_total := ofZ (16 * GiB); m_used := ofZ (12 * GiB);
       m_free := ofZ (4 * GiB); m_available := ofZ (4 * GiB);
       m_usedPercent := ofZ 75 |}.
Proof. reflexivity. Qed.

(** No logical core reported. *)
Example cpu_info_without_cores :
  let w := with_cpus (Ok []) (host "linux" ∅ StatfsMissing 5000) in
  fst (getCpuInfo w (initial_state w))
  = Ok {| cores := 0; effectiveCores := ofZ 0;
          c_model := "Unknown"; c_speed := 0 |}.
Proof. reflexivity. Qed.

(** The mocked [stats] of the test suite on win32. *)
Example disk_on_windows :
  getDiskUsage (host "win32" ∅ (StatfsOk stats_of_test) 5000)
  = {| d_mount := "C:\"; d_total := ofZ 4096000000; d_used := ofZ 2048000000;
       d_free := Some (ofZ 1638400000); d_available := ofZ 1638400000;
       d_usedPercent := ofZ 50 |}.
Proof. reflexivity. Qed.

(** The first call of getSystemCpuUsage has no baseline and answers 0; the
    second call compares the ticks with those of the first. *)
Example system_cpu_first_call :
  let w := host "linux" ∅ StatfsMissing 5000 in
  fst (getSystemCpuUsage w (initial_state w)) = Ok (ofZ 0)
  /\ lastCpuTimes (snd (getSystemCpuUsage w (initial_state w)))
     = Some (3400, 4000)%Z.
Proof. split; reflexivity. Qed.

End Scenarios.

(* ================================================================== *)
(** ** Facts about numbers *)

Section NumberFacts.

Local Open Scope Q_scope.

Lemma Qred_inject (z : Z) : Qred (inject_Z z) = inject_Z z.
Proof.
  apply Qcanon.Qred_identity. simpl. apply Z.gcd_1_r.
Qed.

Lemma fin_inject (z : Z) : fin (inject_Z z) = ofZ z.
Proof. unfold fin, ofZ. now rewrite Qred_inject. Qed.

Lemma add_ofZ (a b : Z) : add (ofZ a) (ofZ b) = ofZ (a + b).
Proof.
  change (add (ofZ a) (ofZ b)) with (fin (inject_Z a + inject_Z b)).
  rewrite <- fin_inject. unfold fin. f_equal.
  apply Qred_complete. now rewrite inject_Z_plus.
Qed.

Lemma neg_ofZ (a : Z) : neg (ofZ a) = ofZ (- a).
Proof.
  change (neg (ofZ a)) with (fin (- inject_Z a)).
  rewrite <- fin_inject. reflexivity.
Qed.

Lemma sub_ofZ (a b : Z) : sub (ofZ a) (ofZ b) = ofZ (a - b).
Proof. unfold sub. now rewrite neg_ofZ, add_ofZ. Qed.

Lemma mul_ofZ (a b : Z) : mul (ofZ a) (ofZ b) = ofZ (a * b).
Proof.
  change (mul (ofZ a) (ofZ b)) with (fin (inject_Z a * inject_Z b)).
  rewrite <- fin_inject. reflexivity.
Qed.

Lemma compare_ofZ (a b : Z) : compare (ofZ a) (ofZ b) = Some (a ?= b)%Z.
Proof.
  unfold compare, ofZ, Qcompare. simpl. now rewrite !Z.mul_1_r.
Qed.

Lemma lt_ofZ (a b : Z) : lt (ofZ a) (ofZ b) = (a <? b)%Z.
Proof. unfold lt. rewrite compare_ofZ. unfold Z.ltb. now destruct (a ?= b)%Z. Qed.

Lemma gt_ofZ (a b : Z) : gt (ofZ a) (ofZ b) = (b <? a)%Z.
Proof. apply lt_ofZ. Qed.

(** A number above zero is a positive rational or the positive infinity. *)
Lemma gt_0_inv (x : number) :
  gt x (ofZ 0) = true ->
  x = Infinity false \/ exists q, x = Num q /\ 0 < q.
Proof.
  unfold gt, lt. destruct x as [|[]|q]; simpl; try discriminate; auto.
  destruct (inject_Z 0 ?= q) eqn:E; try discriminate.
  intros _. right. exists q. split; [reflexivity|]. now apply Qlt_alt.
Qed.

Lemma lt_Num_inv (x : number) (b : Q) :
  lt x (Num b) = true ->
  x = Infinity true \/ exists q, x = Num q /\ q < b.
Proof.
  unfold lt. destruct x as [|[]|q]; simpl; try discriminate; auto.
  destruct (q ?= b) eqn:E; try discriminate.
  intros _. right. exists q. split; [reflexivity|]. now apply Qlt_alt.
Qed.

(** A limit that passed [memLimit > 0 && memLimit < bound] is a positive
    rational below the bound. *)
Lemma accepted_limit (x : number) (bound : Z) :
  gt x (ofZ 0) && lt x (ofZ bound) = true ->
  exists q, x = Num q /\ 0 < q /\ q < inject_Z bound.
Proof.
  intros H. apply andb_true_iff in H as [H0 H1].
  apply gt_0_inv in H0 as [->|(q & -> & Hq)]; [discriminate|].
  apply lt_Num_inv in H1 as [?|(q' & [= <-] & Hq')]; [discriminate|].
  eauto.
Qed.

Lemma between_clamp (x : number) :
  x <> NaN -> between 0 100 (clamp_percent x).
Proof.
  intros Hx. unfold clamp_percent, max, min.
  destruct x as [|[]|q]; [congruence| | |]; simpl.
  - split; [apply Qle_refl | discriminate].
  - split; [discriminate | apply Qle_refl].
  - change (inject_Z 0) with 0. change (inject_Z 100) with 100.
    destruct (Qcompare_spec q 0) as [E|L|G]; simpl.
    + change (inject_Z 100) with 100.
      destruct (Qcompare_spec q 100) as [E'|L'|G']; simpl.
      * rewrite E' in E. discriminate.
      * split; [rewrite E; apply Qle_refl | now apply Qlt_le_weak].
      * split; [discriminate | apply Qle_refl].
    + split; discriminate.
    + change (inject_Z 100) with 100.
      destruct (Qcompare_spec q 100) as [E'|L'|G']; simpl.
      * split; [now apply Qlt_le_weak | rewrite E'; apply Qle_refl].
      * split; now apply Qlt_le_weak.
      * split; [discriminate | apply Qle_refl].
Qed.
End NumberFacts.

(* ================================================================== *)
(** ** Container detection: what the probe preserves *)

Module ProbeFacts.
Import Probe.

Lemma inv_ret {A} P (a : A) : inv P (ret a).
Proof. intros ci H. exact H. Qed.

Lemma inv_get P : inv P get.
Proof. intros ci H. exact H. Qed.

Lemma inv_modify P f : (forall ci, P ci -> P (f ci)) -> inv P (modify f).
Proof. intros Hf ci H. now apply Hf. Qed.

Lemma inv_when P (b : bool) m : (b = true -> inv P m) -> inv P (when b m).
Proof. intros Hm. destruct b; [now apply Hm | apply inv_ret]. Qed.

Lemma inv_bind {A B} P (m : D A) (k : A -> D B) :
  inv P m -> (forall a, inv P (k a)) -> inv P (bind m k).
Proof.
  intros Hm Hk ci H. unfold bind. specialize (Hm ci H).
  destruct (m ci) as [[e|a] ci']; simpl in *; [exact Hm | now apply Hk].
Qed.

(** A step that reads a value leaves the record alone, and what follows
    may use that the read answered. *)
Lemma inv_bind_lift {A B} P (r : res A) (k : A -> D B) :
  (forall a, r = Ok a -> inv P (k a)) -> inv P (bind (lift r) k).
Proof.
  intros Hk ci H. unfold bind, lift. destruct r as [e|a]; simpl; [exact H|].
  now apply Hk.
Qed.

Ltac inv_step :=
  first
    [ apply inv_ret
    | apply inv_get
    | apply inv_bind_lift; intros ? ?
    | apply inv_bind; [| intros ?]
    | apply inv_when; intros ?
    | apply inv_modify; intros ? ? ].

Lemma inv_v2_cpu P (w : world) (cpuMax : string) :
  memory_only P ->
  inv P (match split (trim cpuMax) with
         | [p0; p1] =>
             when (negb (String.eqb p0 "max"))
               (let quota := parseInt p0 (Some 10) in
                let period := parseInt p1 (Some 10) in
                when (gt quota (ofZ 0) && gt period (ofZ 0))
                  (modify (accept_cpu (div quota period))))
         | _ => ret tt
         end).
Proof.
  intros [Hc _].
  destruct (split (trim cpuMax)) as [|p0 [|p1 [|? ?]]]; try apply inv_ret.
  repeat inv_step. now apply Hc.
Qed.

(** The tail of the probe: the marker files. *)
Lemma inv_markers P (w : world) :
  memory_only P ->
  inv P (bind get (fun ci =>
           when (negb (isContainerized ci))
             (when (existsSync w "/.dockerenv"
                    || existsSync w "/var/run/secrets/kubernetes.io")
                (modify mark_containerized)))).
Proof. intros [_ Hm]. repeat inv_step. now apply Hm. Qed.

(** The cgroup v2 branch preserves [P] as soon as its step that accepts
    a memory limit does, for the content that was read. *)
Lemma inv_cgroup_v2 P (w : world) :
  memory_only P ->
  (forall s ci,
      readFileSync w CGROUP_V2_memoryMax = Ok s ->
      String.eqb (trim s) "max" = false ->
      gt (parseInt (trim s) (Some 10)) (ofZ 0)
      && lt (parseInt (trim s) (Some 10)) (ofZ (os_totalmem w)) = true ->
      P ci -> P (accept_memory V2 (parseInt (trim s) (Some 10)) ci)) ->
  inv P (cgroup_v2 w).
Proof.
  intros HP H2. unfold cgroup_v2. apply inv_bind_lift; intros memMax Hread.
  apply inv_bind.
  - apply inv_when; intros Hmax. apply negb_true_iff in Hmax.
    apply inv_when; intros Hguard. apply inv_modify; intros ci Hci.
    now apply H2.
  - intros _. apply inv_when; intros _. apply inv_bind_lift; intros cpuMax _.
    now apply inv_v2_cpu.
Qed.

Lemma inv_cgroup_v1 P (w : world) :
  memory_only P ->
  (forall s ci,
      readFileSync w CGROUP_V1_memoryLimit = Ok s ->
      gt (parseInt (trim s) (Some 10)) (ofZ 0)
      && lt (parseInt (trim s) (Some 10)) MAX_MEMORY_LIMIT
      && lt (parseInt (trim s) (Some 10)) (ofZ (os_totalmem w)) = true ->
      P ci -> P (accept_memory V1 (parseInt (trim s) (Some 10)) ci)) ->
  inv P (cgroup_v1 w).
Proof.
  intros HP H1. unfold cgroup_v1. apply inv_bind_lift; intros raw Hread.
  apply inv_bind.
  - apply inv_when; intros Hguard. apply inv_modify; intros ci Hci.
    now apply H1.
  - intros _. destruct HP as [Hc _]. repeat inv_step. now apply Hc.
Qed.

(** The whole probe. *)
Lemma inv_probe P (w : world) :
  memory_only P ->
  (existsSync w CGROUP_V2_memoryMax = true -> inv P (cgroup_v2 w)) ->
  (existsSync w CGROUP_V2_memoryMax = false ->
   existsSync w CGROUP_V1_memoryLimit = true -> inv P (cgroup_v1 w)) ->
  inv P (probe w).
Proof.
  intros HP H2 H1. unfold probe.
  apply inv_bind; [|intros _; now apply inv_markers].
  destruct (existsSync w CGROUP_V2_memoryMax); [now apply H2|].
  destruct (existsSync w CGROUP_V1_memoryLimit); [now apply H1|apply inv_ret].
Qed.

(** What a first call on Linux returns satisfies every [P] that the
    initial record satisfies and the probe preserves. *)
Lemma detect_inv P (w : world) :
  P unconfined -> inv P (probe w) -> P (detect w).
Proof.
  intros H0 Hinv. unfold detect.
  destruct (negb (String.eqb (os_platform w) "linux")); [exact H0|].
  now apply Hinv.
Qed.

Lemma memory_only_limit (o : option number) :
  memory_only (fun ci => memoryLimit ci = o).
Proof. split; intros; assumption. Qed.

End ProbeFacts.

Lemma detectContainerEnvironment_first (w : world) (st : state) :
  containerInfo st = None ->
  detectContainerEnvironment w st = (detect w, set_containerInfo (Some (detect w)) st).
Proof. intros H. unfold detectContainerEnvironment. now rewrite H. Qed.

Lemma existsSync_lookup (w : world) (p : string) (n : fnode) :
  fs w !! p = Some n -> existsSync w p = true.
Proof. intros H. unfold existsSync. now rewrite H. Qed.

Lemma readFileSync_lookup (w : world) (p s : string) :
  fs w !! p = Some (File s) -> readFileSync w p = Ok s.
Proof. intros H. unfold readFileSync. now rewrite H. Qed.

Lemma readFileSync_Ok (w : world) (p s : string) :
  readFileSync w p = Ok s -> fs w !! p = Some (File s).
Proof.
  unfold readFileSync. destruct (fs w !! p) as [[| |]|]; try discriminate.
  now intros [= ->].
Qed.

(** A limit cannot be both below the sentinel and at or above it. *)
Lemma lt_not_le (x y : number) : lt x y = true -> le y x = false.
Proof.
  unfold lt, le, compare.
  destruct x as [|[]|p], y as [|[]|q]; simpl; try discriminate; try reflexivity.
  destruct (p ?= q)%Q eqn:E; try discriminate. intros _.
  apply Qlt_alt in E. apply Qgt_alt in E. now rewrite E.
Qed.

(* ================================================================== *)
(** ** Properties of container detection *)

Section Detection.
Import Probe ProbeFacts Sample.
Local Open Scope Q_scope.

Lemma post_bind {A B} P (m : D A) (k : A -> D B) (ci : ContainerInfo) :
  P (snd (m ci)) -> (forall a, inv P (k a)) -> P (snd (bind m k ci)).
Proof.
  intros Hm Hk. unfold bind.
  destruct (m ci) as [[e|a] ci']; simpl in *; [exact Hm | now apply Hk].
Qed.

Lemma post_bind_lift {A B} (P : ContainerInfo -> Prop) (a : A) (k : A -> D B)
    (ci : ContainerInfo) :
  P (snd (k a ci)) -> P (snd (bind (lift (Ok a)) k ci)).
Proof. intros H. exact H. Qed.

Lemma detect_linux (w : world) :
  os_platform w = "linux" -> detect w = snd (probe w unconfined).
Proof. intros H. unfold detect. now rewrite H. Qed.

Lemma accepted_probe (w : world) : inv (accepted w) (probe w).
Proof.
  assert (HP : memory_only (accepted w)).
  { split; intros; intros l' Hl'; simpl in *;
      destruct (H l' Hl') as (? & ? & ?); auto. }
  apply inv_probe; [exact HP | |]; intros.
  - apply inv_cgroup_v2; [exact HP|]. intros s ci _ _ Hg _ l [= <-].
    apply accepted_limit in Hg. simpl. repeat split; auto; discriminate.
  - apply inv_cgroup_v1; [exact HP|]. intros s ci _ Hg _ l [= <-].
    apply andb_true_iff in Hg as [Hg Hg'].
    apply andb_true_iff in Hg as [Hg _].
    assert (Hg'' : gt (parseInt (trim s) (Some 10%Z)) (ofZ 0)
                   && lt (parseInt (trim s) (Some 10%Z)) (ofZ (os_totalmem w))
                   = true) by now rewrite Hg, Hg'.
    apply accepted_limit in Hg''. simpl. repeat split; auto; discriminate.
Qed.

Lemma accepted_detect (w : world) : accepted w (detect w).
Proof.
  apply detect_inv; [intros l; discriminate | apply accepted_probe].
Qed.

(** The memory half of the invariant of the data model: without a cgroup
    version there is no memory limit. *)
Lemma no_version_no_memory_limit (w : world) :
  cgroupVersion (detect w) = None -> memoryLimit (detect w) = None.
Proof.
  intros Hv. destruct (memoryLimit (detect w)) as [l|] eqn:E; [|reflexivity].
  destruct (accepted_detect w l E) as (_ & _ & Hne). contradiction.
Qed.

(** C3, at the input where the code departs from it: under cgroup v2 with
    [memory.max] holding "max" and [cpu.max] holding "50000 100000", the
    first call of detectContainerEnvironment returns a record whose
    cgroupVersion is null and whose cpuLimit is 0.5. *)
Theorem cpu_limit_without_cgroup_version :
  let w := host "linux" v2_cpu_only StatfsMissing 5000 in
  let ci := fst (detectContainerEnvironment w (initial_state w)) in
  cgroupVersion ci = None
  /\ cpuLimit ci = Some (Num (1 # 2))
  /\ memoryLimit ci = None
  /\ isContainerized ci = true.
Proof. vm_compute. repeat split. Qed.

(** C7: a memory limit in the record that a first call returns is a value
    strictly above zero and strictly below the total memory of the host,
    and the record is then marked containerized; cgroup v2 with "max" in
    [memory.max] leaves the memory limit absent; cgroup v2 with a value
    that passes the guard (1073741824 on a host of 16 GiB, say) gives that
    value as the limit in a containerized record; cgroup v1 with a value at
    or above the sentinel 9223372036854771712 leaves the limit absent. *)
Theorem memory_limit_is_genuine :
  (forall w st l,
      containerInfo st = None ->
      memoryLimit (fst (detectContainerEnvironment w st)) = Some l ->
      (exists q, l = Num q /\ 0 < q /\ q < inject_Z (os_totalmem w))
      /\ isContainerized (fst (detectContainerEnvironment w st)) = true)
  /\ (forall w st s,
      containerInfo st = None ->
      os_platform w = "linux" ->
      fs w !! CGROUP_V2_memoryMax = Some (File s) ->
      trim s = "max" ->
      memoryLimit (fst (detectContainerEnvironment w st)) = None)
  /\ (forall w st s (l : Z),
      containerInfo st = None ->
      os_platform w = "linux" ->
      fs w !! CGROUP_V2_memoryMax = Some (File s) ->
      trim s <> "max" ->
      parseInt (trim s) (Some 10%Z) = ofZ l ->
      (0 < l < os_totalmem w)%Z ->
      isContainerized (fst (detectContainerEnvironment w st)) = true
      /\ memoryLimit (fst (detectContainerEnvironment w st)) = Some (ofZ l))
  /\ (forall w st s,
      containerInfo st = None ->
      os_platform w = "linux" ->
      fs w !! CGROUP_V2_memoryMax = None ->
      fs w !! CGROUP_V1_memoryLimit = Some (File s) ->
      le MAX_MEMORY_LIMIT (parseInt (trim s) (Some 10%Z)) = true ->
      memoryLimit (fst (detectContainerEnvironment w st)) = None).
Proof.
  split; [|split; [|split]].
  - intros w st l Hst. rewrite (detectContainerEnvironment_first w st Hst).
    simpl. intros Hl. destruct (accepted_detect w l Hl) as (Hq & Hc & _). auto.
  - intros w st s Hst Hlinux Hfile Hmax.
    rewrite (detectContainerEnvironment_first w st Hst). simpl.
    apply (detect_inv (fun ci => memoryLimit ci = None)); [reflexivity|].
    apply inv_probe; [apply memory_only_limit | |]; intros.
    + apply inv_cgroup_v2; [apply memory_only_limit|].
      intros s' ci Hread Hne. apply readFileSync_Ok in Hread.
      rewrite Hfile in Hread. injection Hread as <-.
      rewrite Hmax in Hne. discriminate.
    + rewrite (existsSync_lookup _ _ _ Hfile) in *. discriminate.
  - intros w st s l Hst Hlinux Hfile Hne Hparse Hl.
    rewrite (detectContainerEnvironment_first w st Hst). simpl.
    rewrite (detect_linux w Hlinux).
    set (P := fun ci => isContainerized ci = true
                        /\ memoryLimit ci = Some (ofZ l)).
    assert (HP : memory_only P).
    { unfold P. split; intros; simpl; tauto. }
    change (P (snd (probe w unconfined))).
    unfold probe. apply post_bind; [|intros _; now apply inv_markers].
    rewrite (existsSync_lookup _ _ _ Hfile).
    unfold cgroup_v2. rewrite (readFileSync_lookup _ _ _ Hfile).
    apply post_bind_lift. apply post_bind.
    + apply String.eqb_neq in Hne. rewrite Hne, Hparse, gt_ofZ, lt_ofZ.
      replace ((0 <? l)%Z && (l <? os_totalmem w)%Z) with true
        by (symmetry; apply andb_true_iff; split; apply Z.ltb_lt; lia).
      split; reflexivity.
    + intros _. apply inv_when; intros _. apply inv_bind_lift; intros cpuMax _.
      now apply inv_v2_cpu.
  - intros w st s Hst Hlinux Hno Hfile Hge.
    rewrite (detectContainerEnvironment_first w st Hst). simpl.
    apply (detect_inv (fun ci => memoryLimit ci = None)); [reflexivity|].
    apply inv_probe; [apply memory_only_limit | |]; intros.
    + unfold existsSync in *. rewrite Hno in *. discriminate.
    + apply inv_cgroup_v1; [apply memory_only_limit|].
      intros s' ci Hread Hg. apply readFileSync_Ok in Hread.
      rewrite Hfile in Hread. injection Hread as <-.
      apply andb_true_iff in Hg as [Hg _].
      apply andb_true_iff in Hg as [_ Hg].
      apply lt_not_le in Hg. rewrite Hg in Hge. discriminate.
Qed.

Lemma memory_limit_is_genuine_witness :
  let w2 := host "linux" (v2_limited "536870912") StatfsMissing 5000 in
  let wmax := host "linux" v2_cpu_only StatfsMissing 5000 in
  let w1 := host "linux" v1_unlimited StatfsMissing 5000 in
  let ci2 := fst (detectContainerEnvironment w2 (initial_state w2)) in
  ((exists q, ofZ 1073741824 = Num q /\ 0 < q /\ q < inject_Z (16 * GiB))
   /\ isContainerized ci2 = true)
  /\ memoryLimit (fst (detectContainerEnvironment wmax (initial_state wmax))) = None
  /\ (isContainerized ci2 = true /\ memoryLimit ci2 = Some (ofZ 1073741824))
  /\ memoryLimit (fst (detectContainerEnvironment w1 (initial_state w1))) = None.
Proof.
  intros w2 wmax w1 ci2.
  destruct memory_limit_is_genuine as (H1 & H2 & H3 & H4).
  split; [|split; [|split]].
  - apply (H1 w2 (initial_state w2) (ofZ 1073741824)); reflexivity.
  - apply (H2 wmax (initial_state wmax) ("max" ++ LF)); reflexivity.
  - apply (H3 w2 (initial_state w2) ("1073741824" ++ LF) 1073741824%Z);
      try reflexivity; [discriminate | vm_compute; split; reflexivity].
  - apply (H4 w1 (initial_state w1) ("9223372036854771712" ++ LF)); reflexivity.
Defined.

End Detection.

(* ================================================================== *)
(** ** Properties of the memory and disk samplers *)

Section Samplers.
Import Sample.
Local Open Scope Q_scope.

Lemma div_ofZ (a b : Z) :
  b <> 0%Z -> div (ofZ a) (ofZ b) = fin (inject_Z a / inject_Z b).
Proof.
  intros Hb. unfold div, ofZ.
  destruct (inject_Z b ?= 0) eqn:E; try reflexivity.
  apply Qeq_alt in E. unfold Qeq in E. simpl in E. lia.
Qed.

Lemma mul_fin_ofZ (q : Q) (b : Z) : mul (fin q) (ofZ b) = fin (q * inject_Z b).
Proof.
  unfold mul, fin, ofZ. f_equal. apply Qred_complete.
  now rewrite Qred_correct.
Qed.

Lemma round_fin (q : Q) : round (fin q) = ofZ (Qfloor (q + (1 # 2))).
Proof.
  unfold round, fin, ofZ. do 2 f_equal. apply Qfloor_comp.
  now rewrite Qred_correct.
Qed.

(** The percentage that every memory and disk block carries, as a value. *)
Lemma percent_value (a b : Z) :
  b <> 0%Z ->
  div (round (mul (div (ofZ a) (ofZ b)) (ofZ 1000))) (ofZ 10)
  = fin (percent1 a b).
Proof.
  intros Hb. rewrite div_ofZ by exact Hb.
  rewrite mul_fin_ofZ, round_fin, div_ofZ by discriminate. reflexivity.
Qed.

Lemma inject_Z_pos (b : Z) : (0 < b)%Z -> 0 < inject_Z b.
Proof. intros H. change 0 with (inject_Z 0). now rewrite <- Zlt_Qlt. Qed.

Lemma inject_Z_nonneg (a : Z) : (0 <= a)%Z -> 0 <= inject_Z a.
Proof. intros H. change 0 with (inject_Z 0). now rewrite <- Zle_Qle. Qed.

Lemma percent1_range (a b : Z) :
  (0 <= a <= b)%Z -> (0 < b)%Z -> 0 <= percent1 a b <= 100.
Proof.
  intros Ha Hb. unfold percent1.
  pose proof (inject_Z_pos b Hb) as Hb'.
  assert (H0 : 0 <= inject_Z a / inject_Z b * 1000).
  { apply Qmult_le_0_compat; [|discriminate].
    apply Qle_shift_div_l; [exact Hb'|].
    rewrite Qmult_0_l. apply inject_Z_nonneg. lia. }
  assert (H1 : inject_Z a / inject_Z b * 1000 <= 1000).
  { apply Qle_trans with (1 * 1000); [|unfold Qle; simpl; lia].
    apply Qmult_le_compat_r; [|discriminate].
    apply Qle_shift_div_r; [exact Hb'|].
    rewrite Qmult_1_l. rewrite <- Zle_Qle. lia. }
  assert (F0 : (0 <= Qfloor (inject_Z a / inject_Z b * 1000 + (1 # 2)))%Z).
  { change 0%Z with (Qfloor 0). apply Qfloor_resp_le.
    apply Qle_trans with (inject_Z a / inject_Z b * 1000); [exact H0|].
    rewrite <- Qplus_0_r at 1. apply Qplus_le_r. discriminate. }
  assert (F1 : (Qfloor (inject_Z a / inject_Z b * 1000 + (1 # 2)) <= 1000)%Z).
  { change 1000%Z with (Qfloor (1000 + (1 # 2))). apply Qfloor_resp_le.
    now apply Qplus_le_l. }
  split.
  - apply Qle_shift_div_l; [reflexivity|]. rewrite Qmult_0_l.
    now apply inject_Z_nonneg.
  - apply Qle_shift_div_r; [reflexivity|].
    rewrite Zle_Qle in F1. exact F1.
Qed.

Lemma getContainerMemory_Some (w : world) (st : state) (b : memory_block) :
  fst (getContainerMemory w st) = Some b ->
  exists limit currentUsage,
    memoryLimit (fst (detectContainerEnvironment w st)) = Some limit
    /\ b = container_block limit currentUsage.
Proof.
  unfold getContainerMemory.
  destruct (detectContainerEnvironment w st) as [info st'] eqn:Hd. simpl.
  destruct (negb (isContainerized info) || falsy (memoryLimit info)) eqn:Hc;
    [discriminate|].
  apply orb_false_iff in Hc as [_ Hf].
  destruct (memoryLimit info) as [limit|] eqn:Hl; [|discriminate]. simpl.
  match goal with
  | |- fst (match ?u with _ => _ end) = _ -> _ =>
      destruct u as [e|currentUsage]; [discriminate|]
  end.
  simpl. intros [= <-]. exists limit, currentUsage. split; reflexivity.
Qed.

(** The block of the host path. *)
Lemma getSystemMemory_host (w : world) (st : state) :
  fst (getContainerMemory w st) = None ->
  let usedMem := max (ofZ 0) (sub (ofZ (os_totalmem w)) (host_freeMem w)) in
  fst (getSystemMemory w st)
  = {| m_total := ofZ (os_totalmem w);
       m_used := usedMem;
       m_free := host_freeMem w;
       m_available := host_freeMem w;
       m_usedPercent :=
         div (round (mul (div usedMem (ofZ (os_totalmem w))) (ofZ 1000)))
             (ofZ 10) |}.
Proof.
  unfold getSystemMemory.
  destruct (getContainerMemory w st) as [[b|] st']; simpl; [discriminate|].
  reflexivity.
Qed.

Lemma getSystemMemory_container (w : world) (st : state) (b : memory_block) :
  fst (getContainerMemory w st) = Some b -> fst (getSystemMemory w st) = b.
Proof.
  unfold getSystemMemory.
  destruct (getContainerMemory w st) as [[b'|] st']; simpl; [|discriminate].
  now intros [= ->].
Qed.

(** Every block carries the percentage that its own [used] and [total]
    give: it is never taken from another source. *)
Lemma usedPercent_derived (w : world) (st : state) :
  let b := fst (getSystemMemory w st) in
  m_usedPercent b
  = div (round (mul (div (m_used b) (m_total b)) (ofZ 1000))) (ofZ 10).
Proof.
  destruct (fst (getContainerMemory w st)) as [b|] eqn:E.
  - rewrite (getSystemMemory_container w st b E).
    apply getContainerMemory_Some in E as (limit & usage & _ & ->).
    reflexivity.
  - simpl. rewrite (getSystemMemory_host w st E). reflexivity.
Qed.

(** C10: the [free] field of every memory block equals its [available]
    field.  getSystemMemory returns such a block on the container path and
    on every host path, where both fields hold the free memory after the
    refinement of the platform; getContainerMemory sets both to
    [Math.max(0, limit - currentUsage)]. *)
Theorem memory_free_equals_available :
  (forall w st,
      m_free (fst (getSystemMemory w st))
      = m_available (fst (getSystemMemory w st)))
  /\ (forall w st,
      fst (getContainerMemory w st) = None ->
      m_free (fst (getSystemMemory w st)) = host_freeMem w
      /\ m_available (fst (getSystemMemory w st)) = host_freeMem w)
  /\ (forall w st b,
      fst (getContainerMemory w st) = Some b ->
      memoryLimit (fst (detectContainerEnvironment w st)) = Some (m_total b)
      /\ m_free b = max (ofZ 0) (sub (m_total b) (m_used b))
      /\ m_available b = max (ofZ 0) (sub (m_total b) (m_used b))).
Proof.
  split; [|split].
  - intros w st. destruct (fst (getContainerMemory w st)) as [b|] eqn:E.
    + rewrite (getSystemMemory_container w st b E).
      apply getContainerMemory_Some in E as (limit & usage & _ & ->).
      reflexivity.
    + rewrite (getSystemMemory_host w st E). reflexivity.
  - intros w st E. rewrite (getSystemMemory_host w st E). split; reflexivity.
  - intros w st b E.
    apply getContainerMemory_Some in E as (limit & usage & Hl & ->).
    simpl. auto.
Qed.

Lemma memory_free_equals_available_witness :
  let wh := host "linux" ∅ StatfsMissing 5000 in
  let wc := host "linux" (v2_limited "536870912") StatfsMissing 5000 in
  (m_free (fst (getSystemMemory wh (initial_state wh))) = ofZ (8 * GiB)
   /\ m_available (fst (getSystemMemory wh (initial_state wh))) = ofZ (8 * GiB))
  /\ (memoryLimit (fst (detectContainerEnvironment wc (initial_state wc)))
      = Some (ofZ GiB)
      /\ ofZ 536870912 = max (ofZ 0) (sub (ofZ GiB) (ofZ 536870912))
      /\ ofZ 536870912 = max (ofZ 0) (sub (ofZ GiB) (ofZ 536870912))).
Proof.
  intros wh wc.
  destruct memory_free_equals_available as (_ & Hhost & Hcont).
  split.
  - apply (Hhost wh (initial_state wh)). reflexivity.
  - apply (Hcont wc (initial_state wc)
             (container_block (ofZ GiB) (ofZ 536870912))).
    reflexivity.
Defined.

(** C6, at the input where the code departs from it: in a container with
    a limit of 1 GiB whose [memory.current] reads 1610612736, the block
    that getSystemMemory returns has usedPercent 150. *)
Theorem container_usedPercent_exceeds_100 :
  let w := host "linux" (v2_limited "1610612736") StatfsMissing 5000 in
  let b := fst (getSystemMemory w (initial_state w)) in
  m_total b = ofZ 1073741824
  /\ m_used b = ofZ 1610612736
  /\ m_usedPercent b = ofZ 150
  /\ ~ between 0 100 (m_usedPercent b).
Proof.
  vm_compute. repeat split. intros [_ H]. apply H. reflexivity.
Qed.

(** On the host path the percentage is within bounds whenever the free
    memory is a count of bytes between zero and the total. *)
Lemma host_usedPercent_between (w : world) (st : state) (free : Z) :
  fst (getContainerMemory w st) = None ->
  host_freeMem w = ofZ free ->
  (0 <= free <= os_totalmem w)%Z -> (0 < os_totalmem w)%Z ->
  between 0 100 (m_usedPercent (fst (getSystemMemory w st))).
Proof.
  intros E Hf Hfree Htot. rewrite (getSystemMemory_host w st E).
  cbn [m_usedPercent]. rewrite Hf, sub_ofZ.
  replace (max (ofZ 0) (ofZ (os_totalmem w - free)))
    with (ofZ (os_totalmem w - free)).
  - rewrite percent_value by lia. unfold fin, between.
    rewrite Qred_correct. apply percent1_range; lia.
  - unfold max. rewrite compare_ofZ.
    destruct (Z.compare_spec 0 (os_totalmem w - free)); try reflexivity.
    + now f_equal.
    + lia.
Qed.



End Samplers.

(* ================================================================== *)
(** ** Properties of getCpuPercent *)

Section CpuPercent.
Import Sample.
Local Open Scope Q_scope.

Lemma compare_fin_l (p q : Q) : compare (fin p) (Num q) = Some (p ?= q).
Proof. unfold compare, fin. now rewrite Qred_correct. Qed.

Lemma elapsed_compare (e : Z) :
  (inject_Z e / 1000000 ?= 0) = (e ?= 0)%Z.
Proof.
  unfold Qcompare, Qdiv, Qmult, Qinv. simpl. now rewrite !Z.mul_1_r.
Qed.

Lemma elapsedMs_le_0 (e : Z) :
  le (div (ofZ e) (ofZ 1000000)) (ofZ 0) = (e <=? 0)%Z.
Proof.
  rewrite div_ofZ by discriminate. unfold le.
  change (ofZ 0) with (Num 0). rewrite compare_fin_l, elapsed_compare.
  unfold Z.leb. now destruct (e ?= 0)%Z.
Qed.

Lemma div_fin_pos (p q : Q) : 0 < q -> div (fin p) (fin q) = fin (p / q).
Proof.
  intros Hq. unfold div, fin.
  assert (E : (Qred q ?= 0) = Gt).
  { rewrite Qred_correct. now apply Qgt_alt. }
  rewrite E. unfold fin. apply f_equal, Qred_complete.
  now rewrite !Qred_correct.
Qed.



(** The two outcomes of a call. *)
Lemma getCpuPercent_guard (w : world) (st : state) :
  (delta_nanos w st <= 0)%Z -> getCpuPercent w st = (ofZ 0, st).
Proof.
  intros H. unfold getCpuPercent. cbv zeta.
  fold (delta_nanos w st). rewrite elapsedMs_le_0.
  apply Z.leb_le in H. now rewrite H.
Qed.

Lemma getCpuPercent_sample (w : world) (st : state) :
  (0 < delta_nanos w st)%Z ->
  getCpuPercent w st
  = (clamp_percent (fin (raw_percent w st)),
     set_cpuBaseline (process_cpuUsage_after w) (process_hrtime_after w) st).
Proof.
  intros H. unfold getCpuPercent. cbv zeta.
  fold (delta_nanos w st). rewrite elapsedMs_le_0.
  replace (delta_nanos w st <=? 0)%Z with false
    by (symmetry; apply Z.leb_gt; exact H).
  f_equal. f_equal. cbn [user system]. rewrite add_ofZ.
  fold (delta_micros w st).
  rewrite !div_ofZ by discriminate.
  rewrite div_fin_pos.
  - rewrite mul_fin_ofZ. reflexivity.
  - apply Qlt_shift_div_l; [reflexivity|]. rewrite Qmult_0_l.
    now apply inject_Z_pos.
Qed.



(** C4 as stated fails where the guard returns early: with the clock at
    the reading of the baseline, as when the test suite pins
    [process.hrtime.bigint], the call returns 0 and the baseline keeps the
    CPU time and the clock reading that it had. *)
Lemma baseline_kept_when_no_time_elapsed :
  let w := host "linux" ∅ StatfsMissing 5000 in
  let st := set_cpuBaseline {| user := 100; system := 50 |} (process_hrtime w)
              (initial_state w) in
  fst (getCpuPercent w st) = ofZ 0
  /\ lastCpuUsage (snd (getCpuPercent w st)) = {| user := 100; system := 50 |}
  /\ lastCpuUsage (snd (getCpuPercent w st)) <> process_cpuUsage w
  /\ lastCpuUsage (snd (getCpuPercent w st)) <> process_cpuUsage_after w
  /\ lastCpuTime (snd (getCpuPercent w st)) <> process_hrtime_after w.
Proof. vm_compute. repeat split; discriminate. Qed.

(** C4, amended: a call of getCpuPercent that finds a positive wall time
    since the baseline resets the baseline to the CPU time and the clock
    reading that it takes after computing the percentage, and changes
    nothing else; a call that finds no positive wall time returns 0 and
    leaves the whole state, the baseline included, as it was. *)
Theorem getCpuPercent_baseline (w : world) (st : state) :
  ((0 < delta_nanos w st)%Z ->
   lastCpuUsage (snd (getCpuPercent w st)) = process_cpuUsage_after w
   /\ lastCpuTime (snd (getCpuPercent w st)) = process_hrtime_after w
   /\ snd (getCpuPercent w st)
      = set_cpuBaseline (process_cpuUsage_after w) (process_hrtime_after w) st)
  /\ ((delta_nanos w st <= 0)%Z ->
      fst (getCpuPercent w st) = ofZ 0 /\ snd (getCpuPercent w st) = st).
Proof.
  split; intros H.
  - rewrite getCpuPercent_sample by exact H. simpl. auto.
  - rewrite getCpuPercent_guard by exact H. simpl. auto.
Qed.

Lemma getCpuPercent_baseline_witness :
  let w := host "linux" ∅ StatfsMissing 5000 in
  let st0 := initial_state (host "linux" ∅ StatfsMissing 0) in
  (lastCpuUsage (snd (getCpuPercent w st0)) = {| user := 701; system := 90 |}
   /\ lastCpuTime (snd (getCpuPercent w st0)) = 6000002000%Z
   /\ snd (getCpuPercent w st0)
      = set_cpuBaseline (process_cpuUsage_after w) (process_hrtime_after w) st0)
  /\ (fst (getCpuPercent w (initial_state w)) = ofZ 0
      /\ snd (getCpuPercent w (initial_state w)) = initial_state w).
Proof.
  intros w st0. split.
  - apply (getCpuPercent_baseline w st0). reflexivity.
  - apply (getCpuPercent_baseline w (initial_state w)). vm_compute. discriminate.
Defined.

End CpuPercent.

(* ================================================================== *)
(** ** Properties of the aggregator *)

Section Aggregator.
Import Sample.
Local Open Scope Q_scope.

Lemma keeps_call {A} (r : res A) : keeps (call r).
Proof. intros st. split; reflexivity. Qed.

Lemma keeps_gets {A} (f : state -> A) : keeps (gets f).
Proof. intros st. split; reflexivity. Qed.

Lemma keeps_mret {A} (a : A) : keeps (mret a).
Proof. intros st. split; reflexivity. Qed.

Lemma keeps_run {A} (f : state -> A * state) :
  (forall st, metricsCache (snd (f st)) = metricsCache st
              /\ settings (snd (f st)) = settings st) ->
  keeps (run f).
Proof. intros H st. unfold run. specialize (H st). now destruct (f st). Qed.

Lemma keeps_puts (f : state -> state) :
  (forall st, metricsCache (f st) = metricsCache st
              /\ settings (f st) = settings st) ->
  keeps (puts f).
Proof. intros H st. apply H. Qed.

Lemma keeps_mbind {A B} (m : M A) (k : A -> M B) :
  keeps m -> (forall a, keeps (k a)) -> keeps (mbind m k).
Proof.
  intros Hm Hk st. unfold mbind. specialize (Hm st).
  destruct (m st) as [[e|a] st1]; simpl in *; [exact Hm|].
  destruct (Hk a st1) as [H1 H2]. destruct Hm as [H3 H4].
  split; congruence.
Qed.

Lemma detectContainerEnvironment_frame (w : world) (st : state) :
  metricsCache (snd (detectContainerEnvironment w st)) = metricsCache st
  /\ settings (snd (detectContainerEnvironment w st)) = settings st.
Proof.
  unfold detectContainerEnvironment.
  destruct (containerInfo st); split; reflexivity.
Qed.

Lemma getContainerMemory_frame (w : world) (st : state) :
  metricsCache (snd (getContainerMemory w st)) = metricsCache st
  /\ settings (snd (getContainerMemory w st)) = settings st.
Proof.
  unfold getContainerMemory.
  pose proof (detectContainerEnvironment_frame w st) as H.
  destruct (detectContainerEnvironment w st) as [info st1]. simpl in H.
  destruct (negb (isContainerized info) || falsy (memoryLimit info));
    [exact H|].
  match goal with
  | |- context [match ?u with Throws _ => _ | Ok _ => _ end] => destruct u
  end; exact H.
Qed.

Lemma getSystemMemory_frame (w : world) (st : state) :
  metricsCache (snd (getSystemMemory w st)) = metricsCache st
  /\ settings (snd (getSystemMemory w st)) = settings st.
Proof.
  unfold getSystemMemory.
  pose proof (getContainerMemory_frame w st) as H.
  destruct (getContainerMemory w st) as [[b|] st1]; exact H.
Qed.

Lemma getContainerCpuLimit_frame (w : world) (st : state) :
  metricsCache (snd (getContainerCpuLimit w st)) = metricsCache st
  /\ settings (snd (getContainerCpuLimit w st)) = settings st.
Proof.
  unfold getContainerCpuLimit.
  pose proof (detectContainerEnvironment_frame w st) as H.
  destruct (detectContainerEnvironment w st) as [info st1]. exact H.
Qed.

Lemma getCpuPercent_frame (w : world) (st : state) :
  metricsCache (snd (getCpuPercent w st)) = metricsCache st
  /\ settings (snd (getCpuPercent w st)) = settings st.
Proof.
  unfold getCpuPercent. cbv zeta.
  match goal with |- context [if ?b then _ else _] => destruct b end;
    split; reflexivity.
Qed.

Lemma keeps_getCpuInfo (w : world) : keeps (getCpuInfo w).
Proof.
  unfold getCpuInfo. apply keeps_mbind; [apply keeps_call|]. intros cpus.
  apply keeps_mbind; [apply keeps_run, getContainerCpuLimit_frame|].
  intros. apply keeps_mret.
Qed.

Lemma keeps_getSystemCpuUsage (w : world) : keeps (getSystemCpuUsage w).
Proof.
  unfold getSystemCpuUsage. apply keeps_mbind; [apply keeps_call|]. intros cpus.
  apply keeps_mbind; [apply keeps_gets|]. intros last.
  apply keeps_mbind; [|intros; apply keeps_mret].
  apply keeps_puts. intros st. split; reflexivity.
Qed.

Lemma assembled_step {A} now (m : M A) (k : A -> M metrics) (st : state) :
  keeps m ->
  (forall a st1, assembled now st1 (fst (k a st1)) (snd (k a st1))) ->
  assembled now st (fst (mbind m k st)) (snd (mbind m k st)).
Proof.
  intros Hm Hk. unfold mbind. destruct (Hm st) as [Hc Hs].
  destruct (m st) as [[e|a] st1]; simpl in *.
  - split; assumption.
  - specialize (Hk a st1). unfold assembled in *.
    destruct Hk as [Hk1 Hk2]. split; [congruence|].
    destruct (fst (k a st1)); [congruence | exact Hk2].
Qed.

Lemma assemble_assembled (w : world) (now : Z) (st : state) :
  assembled now st (fst (assemble w now st)) (snd (assemble w now st)).
Proof.
  unfold assemble.
  apply assembled_step; [apply keeps_call|]. intros memoryUsage st1.
  apply assembled_step; [apply keeps_run, getSystemMemory_frame|].
  intros systemMemory st2.
  apply assembled_step; [apply keeps_run, getCpuPercent_frame|].
  intros cpuPercent st3.
  apply assembled_step; [apply keeps_getCpuInfo|]. intros cpuInfo st4.
  cbv zeta.
  apply assembled_step; [apply keeps_getSystemCpuUsage|].
  intros systemCpuPercent st5.
  apply assembled_step; [apply keeps_run, detectContainerEnvironment_frame|].
  intros containerEnv st6.
  apply assembled_step; [apply keeps_gets|]. intros lag st7.
  split; [reflexivity|]. split; reflexivity.
Qed.

(** The samplers throw only where the runtime does. *)
Lemma assemble_Ok (w : world) (now : Z) (st : state) mu cpus :
  process_memoryUsage w = Ok mu -> os_cpus w = Ok cpus ->
  exists m st', assemble w now st = (Ok m, st').
Proof.
  intros Hmu Hcpus. unfold assemble, getCpuInfo, getSystemCpuUsage.
  unfold mbind, call, run, gets, puts, mret. rewrite Hmu, Hcpus.
  destruct (getSystemMemory w st) as [systemMemory st2].
  destruct (getCpuPercent w st2) as [cpuPercent st3].
  destruct (getContainerCpuLimit w st3) as [lim st4].
  cbv zeta.
  match goal with
  | |- context [detectContainerEnvironment w ?s] =>
      destruct (detectContainerEnvironment w s) as [containerEnv st6]
  end.
  eexists. eexists. reflexivity.
Qed.

Lemma compare_fin_r (p q : Q) : compare (Num p) (fin q) = Some (p ?= q).
Proof. unfold compare, fin. now rewrite Qred_correct. Qed.

(** The test of the fast path for a finite refresh interval. *)
Lemma lt_sub_half (now ts : Z) (r : Q) :
  lt (sub (ofZ now) (ofZ ts)) (div (Num r) (ofZ 2)) = true
  <-> inject_Z (now - ts) < r / 2.
Proof.
  rewrite sub_ofZ.
  change (div (Num r) (ofZ 2)) with (fin (r / 2)).
  unfold lt, ofZ. rewrite compare_fin_r, Qlt_alt.
  destruct (inject_Z (now - ts) ?= r / 2); split; congruence.
Qed.

Lemma cache_hit_Some (now : Z) (st : state) (d : metrics) :
  cache_hit now st = Some d <->
  data (metricsCache st) = Some d
  /\ lt (sub (ofZ now) (ofZ (c_timestamp (metricsCache st))))
        (div (refreshInterval (settings st)) (ofZ 2)) = true.
Proof.
  unfold cache_hit. destruct (data (metricsCache st)) as [d'|].
  - destruct (lt _ _); split.
    + intros [= ->]. auto.
    + intros [[= ->] _]. reflexivity.
    + discriminate.
    + intros [_ ?]. discriminate.
  - split; [discriminate | intros [? _]; discriminate].
Qed.

Lemma cache_hit_None (now : Z) (st : state) :
  cache_hit now st = None <->
  data (metricsCache st) = None
  \/ lt (sub (ofZ now) (ofZ (c_timestamp (metricsCache st))))
        (div (refreshInterval (settings st)) (ofZ 2)) = false.
Proof.
  unfold cache_hit. destruct (data (metricsCache st)) as [d'|].
  - destruct (lt _ _); split; auto; try discriminate.
    intros [?|?]; discriminate.
  - split; auto.
Qed.

Lemma collectMetrics_hit (w : world) (st : state) (d : metrics) :
  cache_hit (Date_now w) st = Some d -> collectMetrics w st = (Snapshot d, st).
Proof. intros H. unfold collectMetrics. now rewrite H. Qed.

Lemma collectMetrics_fresh (w : world) (st st' : state) (m : metrics) :
  cache_hit (Date_now w) st = None ->
  assemble w (Date_now w) st = (Ok m, st') ->
  collectMetrics w st = (Snapshot m, st')
  /\ timestamp m = Date_now w
  /\ metricsCache st' = {| data := Some m; c_timestamp := Date_now w |}
  /\ settings st' = settings st.
Proof.
  intros Hc Ha. unfold collectMetrics. rewrite Hc, Ha.
  pose proof (assemble_assembled w (Date_now w) st) as [Hs Hm].
  rewrite Ha in Hs, Hm. simpl in Hs, Hm. destruct Hm. auto.
Qed.

Lemma collectMetrics_caught (w : world) (st st' : state) (e : string) :
  cache_hit (Date_now w) st = None ->
  assemble w (Date_now w) st = (Throws e, st') ->
  collectMetrics w st
  = (match data (metricsCache st) with
     | Some d => Snapshot d
     | None => ErrorObject e
     end, st')
  /\ metricsCache st' = metricsCache st
  /\ settings st' = settings st.
Proof.
  intros Hc Ha. unfold collectMetrics. rewrite Hc, Ha.
  pose proof (assemble_assembled w (Date_now w) st) as [Hs Hm].
  rewrite Ha in Hs, Hm. simpl in Hs, Hm. rewrite Hm. auto.
Qed.

(** A snapshot that a call returns is the snapshot in the cache after it. *)
Lemma collectMetrics_returns_cached (w : world) (st st' : state) (m : metrics) :
  collectMetrics w st = (Snapshot m, st') ->
  data (metricsCache st') = Some m.
Proof.
  destruct (cache_hit (Date_now w) st) as [d|] eqn:Hc.
  - rewrite (collectMetrics_hit w st d Hc). intros [= <- <-].
    now apply cache_hit_Some in Hc as [? _].
  - destruct (assemble w (Date_now w) st) as [[e|m'] st1] eqn:Ha.
    + destruct (collectMetrics_caught w st st1 e Hc Ha) as (-> & Hm & _).
      destruct (data (metricsCache st)) as [d|] eqn:Hd; [|discriminate].
      intros [= <- <-]. now rewrite Hm.
    + destruct (collectMetrics_fresh w st st1 m' Hc Ha) as (-> & _ & Hm & _).
      intros [= <- <-]. now rewrite Hm.
Qed.

(** A cache that is not stamped ahead of the clock stays so over a call,
    for every later reading of the clock. *)
Lemma cache_in_past_preserved (w : world) (st : state) (later : Z) :
  cache_in_past (Date_now w) st -> (Date_now w <= later)%Z ->
  cache_in_past later (snd (collectMetrics w st)).
Proof.
  intros Hpast Hle.
  destruct (cache_hit (Date_now w) st) as [d|] eqn:Hc.
  - rewrite (collectMetrics_hit w st d Hc). simpl.
    intros d' Hd'. destruct (Hpast d' Hd'). split; [assumption | lia].
  - destruct (assemble w (Date_now w) st) as [[e|m] st1] eqn:Ha.
    + destruct (collectMetrics_caught w st st1 e Hc Ha) as (-> & Hm & _).
      simpl. intros d' Hd'. rewrite Hm in *.
      destruct (Hpast d' Hd'). split; [assumption | lia].
    + destruct (collectMetrics_fresh w st st1 m Hc Ha) as (-> & Ht & Hm & _).
      simpl. intros d' Hd'. rewrite Hm in *. simpl in *.
      injection Hd' as <-. split; [exact Ht | exact Hle].
Qed.

Lemma cache_in_past_initial (w : world) (now : Z) :
  cache_in_past now (initial_state w).
Proof. intros d Hd. discriminate. Qed.

(** C1: a call that finds a snapshot in the cache and
    [now - metricsCache.timestamp < settings.refreshInterval / 2] returns
    that snapshot and leaves the whole state as it was, so that no sampler
    ran; any other call whose samplers do not throw returns a snapshot
    stamped [now] and leaves it, with [now], as the content of the cache.
    Hence a call inside the window of the snapshot that the call before it
    returned returns the same snapshot, and of two successful calls more
    than a full (positive) refreshInterval apart the second returns a
    strictly later timestamp, provided the cache was not stamped ahead of
    the clock of the first. *)
Theorem collectMetrics_cache (w1 w2 : world) (st0 st1 st2 : state)
    (m1 m2 : metrics) :
  (forall d,
      data (metricsCache st0) = Some d ->
      lt (sub (ofZ (Date_now w1)) (ofZ (c_timestamp (metricsCache st0))))
         (div (refreshInterval (settings st0)) (ofZ 2)) = true ->
      collectMetrics w1 st0 = (Snapshot d, st0))
  /\ (data (metricsCache st0) = None
       \/ lt (sub (ofZ (Date_now w1)) (ofZ (c_timestamp (metricsCache st0))))
             (div (refreshInterval (settings st0)) (ofZ 2)) = false ->
      assemble w1 (Date_now w1) st0 = (Ok m1, st1) ->
      collectMetrics w1 st0 = (Snapshot m1, st1)
      /\ timestamp m1 = Date_now w1
      /\ metricsCache st1 = {| data := Some m1; c_timestamp := Date_now w1 |})
  /\ (collectMetrics w1 st0 = (Snapshot m1, st1) ->
      lt (sub (ofZ (Date_now w2)) (ofZ (c_timestamp (metricsCache st1))))
         (div (refreshInterval (settings st1)) (ofZ 2)) = true ->
      collectMetrics w2 st1 = (Snapshot m1, st1))
  /\ (forall r : Q,
      refreshInterval (settings st0) = Num r -> 0 < r ->
      cache_in_past (Date_now w1) st0 ->
      successful w1 st0 -> collectMetrics w1 st0 = (Snapshot m1, st1) ->
      successful w2 st1 -> collectMetrics w2 st1 = (Snapshot m2, st2) ->
      r < inject_Z (Date_now w2 - Date_now w1) ->
      (timestamp m1 < timestamp m2)%Z).
Proof.
  split; [|split; [|split]].
  - intros d Hd Hlt. apply collectMetrics_hit. now apply cache_hit_Some.
  - intros Hmiss Ha. apply cache_hit_None in Hmiss.
    destruct (collectMetrics_fresh w1 st0 st1 m1 Hmiss Ha) as (? & ? & ? & _).
    auto.
  - intros H1 Hlt. apply collectMetrics_hit. apply cache_hit_Some.
    split; [|exact Hlt]. exact (collectMetrics_returns_cached _ _ _ _ H1).
  - intros r Hr Hpos Hpast Hs1 H1 Hs2 H2 Hgap.
    assert (Hhalf : r / 2 < r).
    { apply Qlt_shift_div_r; [reflexivity|].
      rewrite <- (Qmult_1_r r) at 1. apply Qmult_lt_l; [exact Hpos|reflexivity]. }
    (* the first call: its timestamp, and the cache and settings it leaves *)
    assert (Hfirst : (timestamp m1 <= Date_now w1)%Z
                     /\ c_timestamp (metricsCache st1) = timestamp m1
                     /\ settings st1 = settings st0).
    { unfold successful in Hs1.
      destruct (cache_hit (Date_now w1) st0) as [d|] eqn:Hc.
      - rewrite (collectMetrics_hit w1 st0 d Hc) in H1.
        injection H1 as <- <-. apply cache_hit_Some in Hc as [Hd _].
        destruct (Hpast d Hd) as [Ht Hle]. rewrite Ht. auto.
      - destruct Hs1 as (m & st' & Ha).
        destruct (collectMetrics_fresh w1 st0 st' m Hc Ha) as (E & Ht & Hm & Hs).
        rewrite E in H1. injection H1 as <- <-.
        rewrite Hm, Ht. simpl. split; [lia|]. auto. }
    destruct Hfirst as (Hle & Hts & Hset).
    (* the second call misses the cache *)
    assert (Hmiss : cache_hit (Date_now w2) st1 = None).
    { apply cache_hit_None. right. rewrite Hset, Hr.
      destruct (lt _ _) eqn:E; [|reflexivity].
      apply lt_sub_half in E. rewrite Hts in E.
      assert (inject_Z (Date_now w2 - Date_now w1)
              <= inject_Z (Date_now w2 - timestamp m1))
        by (rewrite <- Zle_Qle; lia).
      exfalso. apply (Qlt_irrefl r).
      eapply Qlt_trans; [exact Hgap|].
      eapply Qle_lt_trans; [eassumption|].
      eapply Qlt_trans; eassumption. }
    unfold successful in Hs2. rewrite Hmiss in Hs2.
    destruct Hs2 as (m & st' & Ha).
    destruct (collectMetrics_fresh w2 st1 st' m Hmiss Ha) as (E & Ht & _).
    rewrite E in H2. injection H2 as <- <-. rewrite Ht.
    assert (0 < inject_Z (Date_now w2 - Date_now w1))
      by (eapply Qlt_trans; eassumption).
    change 0 with (inject_Z 0) in H. rewrite <- Zlt_Qlt in H. lia.
Qed.

Lemma collectMetrics_cache_witness :
  let w1 := host "linux" ∅ (StatfsOk stats_of_test) 5000 in
  let w2 := host "linux" ∅ (StatfsOk stats_of_test) 5400 in
  let w3 := host "linux" ∅ (StatfsOk stats_of_test) 8000 in
  exists m1 st1 m3 st3,
    (collectMetrics w1 (initial_state w1) = (Snapshot m1, st1)
     /\ timestamp m1 = 5000%Z
     /\ metricsCache st1 = {| data := Some m1; c_timestamp := 5000 |})
    /\ collectMetrics w2 st1 = (Snapshot m1, st1)
    /\ collectMetrics w3 st1 = (Snapshot m3, st3)
    /\ (timestamp m1 < timestamp m3)%Z.
Proof.
  intros w1 w2 w3.
  destruct (assemble_Ok w1 5000 (initial_state w1) _ _ eq_refl eq_refl)
    as (m1 & st1 & Ha1).
  assert (Hmiss1 : cache_hit (Date_now w1) (initial_state w1) = None)
    by reflexivity.
  destruct (collectMetrics_fresh w1 _ st1 m1 Hmiss1 Ha1) as (Hc1 & Ht1 & Hm1 & Hs1).
  assert (Hr : refreshInterval (settings st1) = Num 2000)
    by (rewrite Hs1; reflexivity).
  assert (Hmiss3 : cache_hit (Date_now w3) st1 = None).
  { unfold cache_hit. rewrite Hm1, Hr. reflexivity. }
  destruct (assemble_Ok w3 8000 st1 _ _ eq_refl eq_refl) as (m3 & st3 & Ha3).
  destruct (collectMetrics_fresh w3 _ st3 m3 Hmiss3 Ha3) as (Hc3 & _).
  exists m1, st1, m3, st3.
  pose proof (collectMetrics_cache w1 w3 (initial_state w1) st1 st3 m1 m3)
    as (_ & Hfresh & _ & Hincr).
  pose proof (collectMetrics_cache w1 w2 (initial_state w1) st1 st1 m1 m1)
    as (_ & _ & Hsame & _).
  pose proof (collectMetrics_cache w2 w2 st1 st1 st1 m1 m1)
    as (Hhit & _).
  split; [|split; [|split]].
  - apply Hfresh; [left; reflexivity | exact Ha1].
  - apply Hsame; [exact Hc1|]. rewrite Hm1, Hr. reflexivity.
  - exact Hc3.
  - apply (Hincr 2000).
    + reflexivity.
    + reflexivity.
    + intros d Hd. discriminate.
    + unfold successful. rewrite Hmiss1. eauto.
    + exact Hc1.
    + unfold successful. rewrite Hmiss3. eauto.
    + exact Hc3.
    + reflexivity.
Defined.

(** C2: when the body of the [try] block throws, collectMetrics returns
    to its caller all the same: the snapshot of the cache when there is
    one, and otherwise the object that holds only the message of the
    error; and the cache after the call is the cache before it. *)
Theorem collectMetrics_error (w : world) (st st' : state) (e : string) :
  cache_hit (Date_now w) st = None ->
  assemble w (Date_now w) st = (Throws e, st') ->
  fst (collectMetrics w st)
  = match data (metricsCache st) with
    | Some d => Snapshot d
    | None => ErrorObject e
    end
  /\ metricsCache (snd (collectMetrics w st)) = metricsCache st.
Proof.
  intros Hc Ha.
  destruct (collectMetrics_caught w st st' e Hc Ha) as (-> & Hm & _).
  simpl. auto.
Qed.

Lemma collectMetrics_error_witness :
  let w := host "linux" ∅ (StatfsOk stats_of_test) 5000 in
  let bad1 := with_memoryUsage (Throws "Test error") w in
  let bad2 := with_cpus (Throws "cpus") (host "linux" ∅ StatfsMissing 9000) in
  exists m st1,
    collectMetrics w (initial_state w) = (Snapshot m, st1)
    /\ (fst (collectMetrics bad1 (initial_state w)) = ErrorObject "Test error"
        /\ metricsCache (snd (collectMetrics bad1 (initial_state w)))
           = metricsCache (initial_state w))
    /\ (fst (collectMetrics bad2 st1) = Snapshot m
        /\ metricsCache (snd (collectMetrics bad2 st1)) = metricsCache st1).
Proof.
  intros w bad1 bad2.
  destruct (assemble_Ok w 5000 (initial_state w) _ _ eq_refl eq_refl)
    as (m & st1 & Ha).
  assert (Hmiss : cache_hit (Date_now w) (initial_state w) = None)
    by reflexivity.
  destruct (collectMetrics_fresh w _ st1 m Hmiss Ha) as (Hc & Ht & Hm & Hs).
  exists m, st1. split; [exact Hc|]. split.
  - apply (collectMetrics_error bad1 (initial_state w) (initial_state w)
             "Test error"); reflexivity.
  - assert (Hmiss2 : cache_hit (Date_now bad2) st1 = None).
    { unfold cache_hit. rewrite Hm, Hs. reflexivity. }
    destruct (assemble bad2 (Date_now bad2) st1) as [[e|m'] st2] eqn:Ha2.
    + destruct (collectMetrics_error bad2 st1 st2 e Hmiss2 Ha2) as [H1 H2].
      split; [|exact H2]. rewrite H1, Hm. reflexivity.
    + exfalso. revert Ha2. unfold assemble, getCpuInfo, mbind, call, run.
      simpl. destruct (getSystemMemory bad2 st1) as [b s].
      destruct (getCpuPercent bad2 s). discriminate.
Defined.

End Aggregator.

(* ================================================================== *)
(** ** Properties of the settings handler *)

Section SettingsFacts.
Import Sample.

Lemma parseInt_cases (s : string) (radix : option Z) :
  parseInt s radix = NaN \/ exists z, parseInt s radix = ofZ z.
Proof.
  unfold parseInt.
  repeat match goal with
         | |- context [let '(_, _) := ?x in _] => destruct x
         end.
  destruct (digits _ _ None); eauto.
Qed.

Lemma truthy_ofZ (z : Z) : truthy (ofZ z) = negb (z =? 0).
Proof.
  unfold truthy, ofZ, Qeq_bool. simpl. now rewrite Z.mul_1_r.
Qed.








End SettingsFacts.

(* ================================================================== *)
(** ** Further properties of container detection *)

Section DetectionMore.
Import Probe ProbeFacts Sample.
Local Open Scope Q_scope.

(** The probe preserves [P] as soon as each of its three kinds of
    assignment does, under the guard that stands before it. *)
Lemma inv_probe_steps P (w : world) :
  (forall v s ci,
      gt (parseInt (trim s) (Some 10%Z)) (ofZ 0) = true ->
      lt (parseInt (trim s) (Some 10%Z)) (ofZ (os_totalmem w)) = true ->
      (v = V1 -> lt (parseInt (trim s) (Some 10%Z)) MAX_MEMORY_LIMIT = true) ->
      P ci -> P (accept_memory v (parseInt (trim s) (Some 10%Z)) ci)) ->
  (forall sq sp ci,
      gt (parseInt sq (Some 10%Z)) (ofZ 0)
      && gt (parseInt sp (Some 10%Z)) (ofZ 0) = true ->
      P ci ->
      P (accept_cpu (div (parseInt sq (Some 10%Z)) (parseInt sp (Some 10%Z))) ci)) ->
  (forall ci, P ci -> P (mark_containerized ci)) ->
  inv P (probe w).
Proof.
  intros Hmem Hcpu Hmark. unfold probe. apply inv_bind.
  - destruct (existsSync w CGROUP_V2_memoryMax).
    + unfold cgroup_v2. apply inv_bind_lift; intros memMax _. apply inv_bind.
      * apply inv_when; intros _. apply inv_when; intros Hg.
        apply andb_true_iff in Hg as [Hg0 Hg1].
        apply inv_modify; intros ci Hci. apply Hmem; auto. discriminate.
      * intros _. apply inv_when; intros _.
        apply inv_bind_lift; intros cpuMax _.
        destruct (split (trim cpuMax)) as [|p0 [|p1 [|? ?]]]; try apply inv_ret.
        apply inv_when; intros _. apply inv_when; intros Hg.
        apply inv_modify; intros ci Hci. now apply Hcpu.
    + destruct (existsSync w CGROUP_V1_memoryLimit); [|apply inv_ret].
      unfold cgroup_v1. apply inv_bind_lift; intros raw _. apply inv_bind.
      * apply inv_when; intros Hg.
        apply andb_true_iff in Hg as [Hg Hg1].
        apply andb_true_iff in Hg as [Hg0 Hgm].
        apply inv_modify; intros ci Hci. apply Hmem; auto.
      * intros _. apply inv_when; intros _.
        apply inv_bind_lift; intros rawq _.
        apply inv_bind_lift; intros rawp _.
        apply inv_when; intros Hg.
        apply inv_modify; intros ci Hci. now apply Hcpu.
  - intros _. apply inv_bind; [apply inv_get|]. intros ci0.
    apply inv_when; intros _. apply inv_when; intros _.
    apply inv_modify; intros ci Hci. now apply Hmark.
Qed.

(** A parsed number above zero is a positive integer. *)
Lemma parseInt_gt_0 (s : string) (radix : option Z) :
  gt (parseInt s radix) (ofZ 0) = true ->
  exists z, parseInt s radix = ofZ z /\ (0 < z)%Z.
Proof.
  destruct (parseInt_cases s radix) as [->|[z ->]]; [discriminate|].
  rewrite gt_ofZ. intros H. apply Z.ltb_lt in H. eauto.
Qed.

Lemma lt_ofZ_true (a b : Z) : lt (ofZ a) (ofZ b) = true -> (a < b)%Z.
Proof. rewrite lt_ofZ. apply Z.ltb_lt. Qed.

(** X1: detection runs once.  Whatever the first call returns is what
    every later call returns, in any environment, and a later call does
    not change the state; after resetContainerInfo the next call probes
    the environment again. *)
Theorem detection_is_cached (w1 w2 : world) (st : state) :
  detectContainerEnvironment w2 (snd (detectContainerEnvironment w1 st))
  = detectContainerEnvironment w1 st
  /\ fst (detectContainerEnvironment w2
            (resetContainerInfo (snd (detectContainerEnvironment w1 st))))
     = detect w2.
Proof.
  unfold detectContainerEnvironment, resetContainerInfo.
  destruct (containerInfo st) as [ci|] eqn:E; simpl.
  - rewrite E. auto.
  - auto.
Qed.

(** X2: a record that is not marked containerized carries nothing: no
    cgroup version and no limit, also when the probe stopped at a read
    error half way. *)
Theorem not_containerized_is_unconfined (w : world) :
  isContainerized (detect w) = false -> detect w = unconfined.
Proof.
  apply (detect_inv (fun ci => isContainerized ci = false -> ci = unconfined));
    [reflexivity|].
  apply inv_probe_steps; intros; discriminate.
Qed.

Lemma not_containerized_is_unconfined_witness :
  detect (host "linux" ∅ StatfsMissing 5000) = unconfined.
Proof.
  apply (not_containerized_is_unconfined (host "linux" ∅ StatfsMissing 5000)).
  reflexivity.
Defined.

(** What the record says of a CPU limit that it carries. *)
Lemma cpuLimit_facts (w : world) (l : number) :
  cpuLimit (detect w) = Some l ->
  (exists quota period : Z,
      (0 < quota)%Z /\ (0 < period)%Z
      /\ l = fin (inject_Z quota / inject_Z period))
  /\ (exists q, l = Num q /\ 0 < q)
  /\ isContainerized (detect w) = true.
Proof.
  revert l.
  apply (detect_inv (fun ci => forall l, cpuLimit ci = Some l ->
    (exists quota period : Z,
        (0 < quota)%Z /\ (0 < period)%Z
        /\ l = fin (inject_Z quota / inject_Z period))
    /\ (exists q, l = Num q /\ 0 < q)
    /\ isContainerized ci = true)); [discriminate|].
  apply inv_probe_steps.
  - intros v s ci _ _ _ H l Hl. simpl in Hl. destruct (H l Hl) as (? & ? & _).
    auto.
  - intros sq sp ci Hg _ l [= <-].
    apply andb_true_iff in Hg as [Hq Hp].
    apply parseInt_gt_0 in Hq as (a & -> & Ha).
    apply parseInt_gt_0 in Hp as (b & -> & Hb).
    rewrite div_ofZ by lia. split; [|split; [|reflexivity]].
    + exists a, b. auto.
    + eexists. split; [reflexivity|]. rewrite Qred_correct.
      apply Qlt_shift_div_l; [now apply inject_Z_pos|].
      rewrite Qmult_0_l. now apply inject_Z_pos.
  - intros ci H l Hl. simpl in Hl. destruct (H l Hl) as (? & ? & _). auto.
Qed.

(** X3: a CPU limit in the record is a positive rational, the quotient of
    a positive quota by a positive period, and the record is then marked
    containerized. *)
Theorem cpu_limit_is_positive (w : world) (l : number) :
  cpuLimit (detect w) = Some l ->
  (exists quota period : Z,
      (0 < quota)%Z /\ (0 < period)%Z
      /\ l = fin (inject_Z quota / inject_Z period))
  /\ (exists q, l = Num q /\ 0 < q)
  /\ isContainerized (detect w) = true.
Proof. exact (cpuLimit_facts w l). Qed.

Lemma cpu_limit_is_positive_witness :
  (exists quota period : Z,
      (0 < quota)%Z /\ (0 < period)%Z
      /\ Num (1 # 2) = fin (inject_Z quota / inject_Z period))
  /\ (exists q, Num (1 # 2) = Num q /\ 0 < q)
  /\ isContainerized (detect (host "linux" v2_cpu_only StatfsMissing 5000)) = true.
Proof.
  apply (cpu_limit_is_positive (host "linux" v2_cpu_only StatfsMissing 5000)).
  reflexivity.
Defined.

(** X4: the record has a cgroup version exactly when it has a memory
    limit, and the limit is then a whole number of bytes above zero and
    below the memory of the host; under cgroup v1 it is also below the
    value that stands for no limit. *)
Theorem cgroup_version_iff_memory_limit (w : world) :
  (cgroupVersion (detect w) = None <-> memoryLimit (detect w) = None)
  /\ (forall l, memoryLimit (detect w) = Some l ->
        exists z : Z, l = ofZ z /\ (0 < z < os_totalmem w)%Z
          /\ (cgroupVersion (detect w) = Some V1 ->
              (z < 9223372036854771712)%Z)).
Proof.
  apply (detect_inv (fun ci =>
    (cgroupVersion ci = None <-> memoryLimit ci = None)
    /\ (forall l, memoryLimit ci = Some l ->
          exists z : Z, l = ofZ z /\ (0 < z < os_totalmem w)%Z
            /\ (cgroupVersion ci = Some V1 -> (z < 9223372036854771712)%Z))));
    [split; [tauto | discriminate]|].
  apply inv_probe_steps.
  - intros v s ci H0 H1 Hmax _. split; [split; discriminate|].
    intros l [= <-]. apply parseInt_gt_0 in H0 as (z & Hz & Hpos).
    rewrite Hz in *. exists z. split; [reflexivity|].
    apply lt_ofZ_true in H1. split; [lia|]. simpl.
    intros [= ->]. specialize (Hmax eq_refl). now apply lt_ofZ_true in Hmax.
  - intros sq sp ci _ H. exact H.
  - intros ci H. exact H.
Qed.

Lemma cgroup_version_iff_memory_limit_witness :
  let w := host "linux" (v2_limited "536870912") StatfsMissing 5000 in
  memoryLimit (detect w) = Some (ofZ 1073741824)
  /\ exists z : Z, ofZ 1073741824 = ofZ z /\ (0 < z < os_totalmem w)%Z
       /\ (cgroupVersion (detect w) = Some V1 -> (z < 9223372036854771712)%Z).
Proof.
  intros w. split; [reflexivity|].
  apply (proj2 (cgroup_version_iff_memory_limit w)). reflexivity.
Defined.

(** X5: a control file that exists and cannot be read ends the probe:
    when the first read fails the record stays empty, and the marker files
    are not looked at. *)
Theorem unreadable_limit_file_ends_probe (w : world) (n : fnode) :
  os_platform w = "linux" ->
  (forall s, n <> File s) ->
  (fs w !! CGROUP_V2_memoryMax = Some n
   \/ (fs w !! CGROUP_V2_memoryMax = None
       /\ fs w !! CGROUP_V1_memoryLimit = Some n)) ->
  detect w = unconfined.
Proof.
  intros Hlinux Hn Hfs. rewrite (detect_linux w Hlinux). unfold probe.
  destruct Hfs as [H2|[H2 H1]].
  - unfold existsSync at 1. rewrite H2. unfold cgroup_v2, readFileSync.
    rewrite H2. destruct n; [now destruct (Hn content)| |]; reflexivity.
  - unfold existsSync at 1. rewrite H2.
    unfold existsSync at 1. rewrite H1. unfold cgroup_v1, readFileSync.
    rewrite H1. destruct n; [now destruct (Hn content)| |]; reflexivity.
Qed.

Lemma unreadable_limit_file_ends_probe_witness :
  detect (host "linux"
            {[ CGROUP_V2_memoryMax := NoAccess; "/.dockerenv" := File "" ]}
            StatfsMissing 5000)
  = unconfined.
Proof.
  apply (unreadable_limit_file_ends_probe _ NoAccess);
    [reflexivity | discriminate | left; reflexivity].
Defined.

(** X6: without a memory control file of either hierarchy the record
    has no limit, and it is marked containerized exactly when
    [/.dockerenv] or the Kubernetes directory exists. *)
Theorem markers_without_cgroup_files (w : world) :
  os_platform w = "linux" ->
  fs w !! CGROUP_V2_memoryMax = None ->
  fs w !! CGROUP_V1_memoryLimit = None ->
  detect w
  = {| isContainerized :=
         existsSync w "/.dockerenv"
         || existsSync w "/var/run/secrets/kubernetes.io";
       cgroupVersion := None; memoryLimit := None; cpuLimit := None |}.
Proof.
  intros Hlinux H2 H1. rewrite (detect_linux w Hlinux). unfold probe.
  unfold existsSync at 1. rewrite H2. unfold existsSync at 1. rewrite H1.
  unfold bind, ret, get, when, modify. simpl.
  destruct (existsSync w "/.dockerenv"
            || existsSync w "/var/run/secrets/kubernetes.io"); reflexivity.
Qed.

Lemma markers_without_cgroup_files_witness :
  detect (host "linux" {[ "/.dockerenv" := File "" ]} StatfsMissing 5000)
  = {| isContainerized := true;
       cgroupVersion := None; memoryLimit := None; cpuLimit := None |}.
Proof.
  rewrite (markers_without_cgroup_files
             (host "linux" {[ "/.dockerenv" := File "" ]} StatfsMissing 5000))
    by reflexivity.
  reflexivity.
Defined.

(** X7: cgroup v2 comes first.  When [memory.max] of cgroup v2 exists,
    no file of the cgroup v1 hierarchy is looked at: creating, changing or
    removing one of them does not change the record. *)
Theorem v1_files_ignored_under_v2 (w : world) (p : string) (n : option fnode) :
  existsSync w CGROUP_V2_memoryMax = true ->
  In p [CGROUP_V1_memoryLimit; CGROUP_V1_memoryUsage;
        CGROUP_V1_cpuQuota; CGROUP_V1_cpuPeriod] ->
  detect (with_fs (partial_alter (fun _ => n) p (fs w)) w) = detect w.
Proof.
  intros H2 Hp.
  set (w' := with_fs (partial_alter (fun _ => n) p (fs w)) w).
  assert (Hfs : forall q,
             In q [CGROUP_V2_memoryMax; CGROUP_V2_cpuMax; "/.dockerenv";
                   "/var/run/secrets/kubernetes.io"] ->
             fs w' !! q = fs w !! q).
  { intros q Hq. unfold w'. simpl fs. apply lookup_partial_alter_ne.
    simpl in Hp, Hq. intros <-.
    decompose [or] Hp; decompose [or] Hq; subst; try discriminate; auto. }
  unfold detect. change (os_platform w') with (os_platform w).
  destruct (negb (String.eqb (os_platform w) "linux")); [reflexivity|].
  assert (H2' : existsSync w' CGROUP_V2_memoryMax = true).
  { unfold existsSync in *. rewrite Hfs by (simpl; tauto). exact H2. }
  f_equal. unfold probe. rewrite H2, H2'.
  unfold cgroup_v2, existsSync, readFileSync.
  change (os_totalmem w') with (os_totalmem w).
  rewrite !Hfs by (simpl; tauto). reflexivity.
Qed.

Lemma v1_files_ignored_under_v2_witness :
  let w := host "linux" (v2_limited "536870912") StatfsMissing 5000 in
  detect (with_fs (partial_alter (fun _ => Some (File "1024"))
                     CGROUP_V1_memoryLimit (fs w)) w)
  = detect w.
Proof.
  intros w. apply (v1_files_ignored_under_v2 w); [reflexivity | left; reflexivity].
Defined.

End DetectionMore.

(* ================================================================== *)
(** ** Further properties of the memory samplers *)

Section MemoryMore.
Import Sample.
Local Open Scope Q_scope.

Lemma truthy_ofZ_nonzero (l : Z) : l <> 0%Z -> truthy (ofZ l) = true.
Proof.
  intros H. rewrite truthy_ofZ. now destruct (Z.eqb_spec l 0).
Qed.

Lemma max_0_ofZ (z : Z) : max (ofZ 0) (ofZ z) = ofZ (Z.max 0 z).
Proof.
  unfold max. rewrite compare_ofZ.
  destruct (Z.compare_spec 0 z) as [<-|H|H].
  - reflexivity.
  - now rewrite Z.max_r by lia.
  - now rewrite Z.max_l by lia.
Qed.

(** The call of getContainerMemory on a record with a limit, by the
    outcome of reading the usage. *)
Lemma getContainerMemory_limited (w : world) (st : state) (l : Z) :
  isContainerized (fst (detectContainerEnvironment w st)) = true ->
  memoryLimit (fst (detectContainerEnvironment w st)) = Some (ofZ l) ->
  l <> 0%Z ->
  fst (getContainerMemory w st)
  = match usage_path (fst (detectContainerEnvironment w st)) with
    | Some p =>
        match fs w !! p with
        | None => Some (container_block (ofZ l) (ofZ 0))
        | Some (File s) =>
            Some (container_block (ofZ l) (parseInt (trim s) (Some 10%Z)))
        | Some _ => None
        end
    | None => Some (container_block (ofZ l) (ofZ 0))
    end.
Proof.
  unfold getContainerMemory, usage_path.
  destruct (detectContainerEnvironment w st) as [info st1]. simpl.
  intros Hc Hl Hne. rewrite Hc, Hl. unfold falsy.
  rewrite (truthy_ofZ_nonzero l Hne). cbn [negb orb default].
  destruct (cgroupVersion info) as [[|]|]; try reflexivity;
    unfold existsSync, readFileSync;
    match goal with
    | |- context [fs w !! ?p] => destruct (fs w !! p) as [[| |]|]
    end; reflexivity.
Qed.

Lemma zero_percent (l : Z) :
  l <> 0%Z ->
  div (round (mul (div (ofZ 0) (ofZ l)) (ofZ 1000))) (ofZ 10) = ofZ 0.
Proof.
  intros H. rewrite percent_value by exact H. unfold percent1.
  assert (E : inject_Z 0 / inject_Z l * 1000 + (1 # 2) == 1 # 2).
  { unfold Qdiv. change (inject_Z 0) with 0. rewrite !Qmult_0_l. reflexivity. }
  rewrite (Qfloor_comp _ _ E). reflexivity.
Qed.

(** X8: in a container with a memory limit whose usage file does not
    exist, getContainerMemory reports no usage at all: used 0, the whole
    limit free and available, 0 percent. *)
Theorem missing_usage_file_reads_as_zero (w : world) (st : state) (l : Z) :
  let info := fst (detectContainerEnvironment w st) in
  isContainerized info = true ->
  memoryLimit info = Some (ofZ l) ->
  (0 < l)%Z ->
  (forall p, usage_path info = Some p -> fs w !! p = None) ->
  fst (getContainerMemory w st)
  = Some {| m_total := ofZ l; m_used := ofZ 0; m_free := ofZ l;
            m_available := ofZ l; m_usedPercent := ofZ 0 |}.
Proof.
  intros info Hc Hl Hpos Hp.
  rewrite (getContainerMemory_limited w st l Hc Hl) by lia. fold info.
  assert (E : container_block (ofZ l) (ofZ 0)
              = {| m_total := ofZ l; m_used := ofZ 0; m_free := ofZ l;
                   m_available := ofZ l; m_usedPercent := ofZ 0 |}).
  { unfold container_block. rewrite sub_ofZ, max_0_ofZ, Z.sub_0_r.
    rewrite Z.max_r by lia. rewrite zero_percent by lia. reflexivity. }
  destruct (usage_path info) as [p|]; [|now rewrite E].
  rewrite (Hp p eq_refl). now rewrite E.
Qed.

Lemma missing_usage_file_reads_as_zero_witness :
  let w := host "linux" {[ CGROUP_V2_memoryMax := File "1073741824" ]}
             StatfsMissing 5000 in
  fst (getContainerMemory w (initial_state w))
  = Some {| m_total := ofZ GiB; m_used := ofZ 0; m_free := ofZ GiB;
            m_available := ofZ GiB; m_usedPercent := ofZ 0 |}.
Proof.
  intros w.
  apply (missing_usage_file_reads_as_zero w (initial_state w) GiB);
    try reflexivity.
  intros p [= <-]. reflexivity.
Defined.

(** X9: in a container with a memory limit whose usage file exists and
    cannot be read, getContainerMemory returns null, and getSystemMemory
    then reports the memory of the host, not the limit. *)
Theorem unreadable_usage_file_falls_back_to_host
    (w : world) (st : state) (l : Z) (p : string) (n : fnode) :
  let info := fst (detectContainerEnvironment w st) in
  isContainerized info = true ->
  memoryLimit info = Some (ofZ l) ->
  (0 < l)%Z ->
  usage_path info = Some p ->
  fs w !! p = Some n ->
  (forall s, n <> File s) ->
  fst (getContainerMemory w st) = None
  /\ m_total (fst (getSystemMemory w st)) = ofZ (os_totalmem w)
  /\ m_free (fst (getSystemMemory w st)) = host_freeMem w.
Proof.
  intros info Hc Hl Hpos Hp Hn Hbad.
  assert (E : fst (getContainerMemory w st) = None).
  { rewrite (getContainerMemory_limited w st l Hc Hl) by lia. fold info.
    rewrite Hp, Hn. destruct n; [now destruct (Hbad content)| |]; reflexivity. }
  split; [exact E|]. rewrite (getSystemMemory_host w st E). auto.
Qed.

Lemma unreadable_usage_file_falls_back_to_host_witness :
  let w := host "linux" {[ CGROUP_V2_memoryMax := File "1073741824";
                           CGROUP_V2_memoryCurrent := NoAccess ]}
             StatfsMissing 5000 in
  fst (getContainerMemory w (initial_state w)) = None
  /\ m_total (fst (getSystemMemory w (initial_state w))) = ofZ (16 * GiB)
  /\ m_free (fst (getSystemMemory w (initial_state w))) = host_freeMem w.
Proof.
  intros w.
  apply (unreadable_usage_file_falls_back_to_host w (initial_state w) GiB
           CGROUP_V2_memoryCurrent NoAccess);
    try reflexivity. discriminate.
Defined.



(** X11: a usage file that does not start with a number makes the whole
    block useless: used, free, available and usedPercent are all NaN, and
    getContainerMemory still returns the block instead of null. *)
Theorem unparsable_usage_gives_NaN
    (w : world) (st : state) (l : Z) (p s : string) :
  let info := fst (detectContainerEnvironment w st) in
  isContainerized info = true ->
  memoryLimit info = Some (ofZ l) ->
  (0 < l)%Z ->
  usage_path info = Some p ->
  fs w !! p = Some (File s) ->
  parseInt (trim s) (Some 10%Z) = NaN ->
  fst (getSystemMemory w st)
  = {| m_total := ofZ l; m_used := NaN; m_free := NaN;
       m_available := NaN; m_usedPercent := NaN |}.
Proof.
  intros info Hc Hl Hpos Hp Hf Hnan.
  apply getSystemMemory_container.
  rewrite (getContainerMemory_limited w st l Hc Hl) by lia. fold info.
  rewrite Hp, Hf, Hnan. reflexivity.
Qed.

Lemma unparsable_usage_gives_NaN_witness :
  let w := host "linux" (v2_limited "") StatfsMissing 5000 in
  fst (getSystemMemory w (initial_state w))
  = {| m_total := ofZ GiB; m_used := NaN; m_free := NaN;
       m_available := NaN; m_usedPercent := NaN |}.
Proof.
  intros w.
  apply (unparsable_usage_gives_NaN w (initial_state w) GiB
           CGROUP_V2_memoryCurrent ("" ++ LF));
    reflexivity.
Defined.







Lemma is_digit_head (c : ascii) (s : string) :
  is_digit c = true ->
  trimStart (String c s) = String c s
  /\ match String c s with
     | String "-"%char s' => ((-1)%Z, s')
     | String "+"%char s' => (1%Z, s')
     | _ => (1%Z, String c s)
     end = (1%Z, String c s).
Proof.
  destruct c as [[] [] [] [] [] [] [] []]; try discriminate;
    intros _; split; reflexivity.
Qed.







(** X13: the refinement of the free memory is best effort.  Off Linux
    and macOS, on Linux when [/proc/meminfo] cannot be read or has no
    MemAvailable line, and on macOS when [vm_stat] fails, free and
    available are what [os.freemem] reports. *)
Theorem free_memory_falls_back_to_os (w : world) :
  (os_platform w <> "linux" /\ os_platform w <> "darwin")
  \/ (os_platform w = "linux"
      /\ forall info, readFileSync w "/proc/meminfo" = Ok info ->
                      match_re re_MemAvailable info = None)
  \/ (os_platform w = "darwin" /\ exists e, exec_vm_stat w = Throws e) ->
  host_freeMem w = ofZ (os_freemem w).
Proof.
  unfold host_freeMem. intros [[Hl Hd]|[[Hl Hinfo]|[Hd [e He]]]].
  - apply String.eqb_neq in Hl, Hd. now rewrite Hl, Hd.
  - rewrite Hl. simpl String.eqb. cbv iota.
    destruct (readFileSync w "/proc/meminfo") as [e|info]; [reflexivity|].
    now rewrite (Hinfo info eq_refl).
  - rewrite Hd, He. reflexivity.
Qed.

Lemma free_memory_falls_back_to_os_witness :
  host_freeMem (host "darwin" ∅ StatfsMissing 5000) = ofZ (8 * GiB)
  /\ host_freeMem (host "linux" ∅ StatfsMissing 5000) = ofZ (8 * GiB)
  /\ host_freeMem (host "win32" ∅ StatfsMissing 5000) = ofZ (8 * GiB).
Proof.
  split; [|split].
  - apply (free_memory_falls_back_to_os (host "darwin" ∅ StatfsMissing 5000)).
    right. right. split; [reflexivity | eexists; reflexivity].
  - apply (free_memory_falls_back_to_os (host "linux" ∅ StatfsMissing 5000)).
    right. left. split; [reflexivity | intros info; discriminate].
  - apply (free_memory_falls_back_to_os (host "win32" ∅ StatfsMissing 5000)).
    left. split; discriminate.
Defined.

End MemoryMore.

(* ================================================================== *)
(** ** Further properties of the CPU samplers *)

Section CpuMore.
Import Sample.
Local Open Scope Q_scope.

Lemma fin_canon (x y : Q) : x == y -> fin x = fin y.
Proof. intros H. unfold fin. now rewrite (Qred_complete _ _ H). Qed.

Lemma fin_Z (x : Q) (z : Z) : x == inject_Z z -> fin x = ofZ z.
Proof. intros H. rewrite (fin_canon _ _ H). apply fin_inject. Qed.







(** [Math.max(0, Math.min(x, 100))] of a finite number is in bounds. *)
Lemma between_max_min (x : Q) :
  between 0 100 (max (ofZ 0) (min (fin x) (ofZ 100))).
Proof.
  unfold min. change (ofZ 100) with (Num 100). rewrite compare_fin_l.
  destruct (Qcompare_spec x 100) as [E|L|G].
  - rewrite (fin_Z x 100 E). simpl. split; discriminate.
  - unfold max. change (ofZ 0) with (Num 0). rewrite compare_fin_r.
    destruct (Qcompare_spec 0 x) as [E0|L0|G0]; unfold fin; cbn [between].
    + split; [apply Qle_refl | discriminate].
    + rewrite Qred_correct. split; now apply Qlt_le_weak.
    + split; [apply Qle_refl | discriminate].
  - simpl. split; discriminate.
Qed.

Lemma sub_100_fin (x : Q) : sub (ofZ 100) (fin x) = fin (100 - x).
Proof.
  unfold sub, neg, add, fin, ofZ. apply f_equal, Qred_complete.
  rewrite !Qred_correct. reflexivity.
Qed.

(** getSystemCpuUsage when [os.cpus] answers. *)
Lemma getSystemCpuUsage_Ok (w : world) (st : state) (cpus : list cpu) :
  os_cpus w = Ok cpus ->
  getSystemCpuUsage w st
  = (Ok (max (ofZ 0)
           (min match lastCpuTimes st with
                | Some (idle, total) =>
                    if (0 <? sum_ticks cpus - total)%Z
                    then fin (100 - inject_Z (100 * (sum_idle cpus - idle))
                                    / inject_Z (sum_ticks cpus - total))
                    else ofZ 0
                | None => ofZ 0
                end (ofZ 100))),
     set_lastCpuTimes (Some (sum_idle cpus, sum_ticks cpus)) st).
Proof.
  intros H. unfold getSystemCpuUsage, mbind, call, gets, puts, mret.
  rewrite H. fold (sum_ticks cpus). fold (sum_idle cpus).
  destruct (lastCpuTimes st) as [[idle total]|]; [|reflexivity].
  rewrite gt_ofZ. destruct (0 <? sum_ticks cpus - total)%Z eqn:E; [|reflexivity].
  apply Z.ltb_lt in E. rewrite mul_ofZ, div_ofZ by lia.
  rewrite sub_100_fin. reflexivity.
Qed.

(** X15: getSystemCpuUsage answers a number between 0 and 100 whatever
    the tick counters are, also when they ran backwards; it answers 0 on
    the first call, when there is no baseline, and whenever the total of
    the ticks did not grow; and every call that answers replaces the
    baseline by the sums over the cores of this call and changes nothing
    else. *)
Theorem getSystemCpuUsage_bounded (w : world) (st : state) (cpus : list cpu) :
  os_cpus w = Ok cpus ->
  exists p,
    fst (getSystemCpuUsage w st) = Ok p
    /\ between 0 100 p
    /\ (lastCpuTimes st = None -> p = ofZ 0)
    /\ (forall idle total, lastCpuTimes st = Some (idle, total) ->
          (sum_ticks cpus <= total)%Z -> p = ofZ 0)
    /\ snd (getSystemCpuUsage w st)
       = set_lastCpuTimes (Some (sum_idle cpus, sum_ticks cpus)) st.
Proof.
  intros H. rewrite (getSystemCpuUsage_Ok w st cpus H). cbn [fst snd].
  eexists. split; [reflexivity|]. split; [|split; [|split]].
  - destruct (lastCpuTimes st) as [[idle total]|].
    + destruct (0 <? sum_ticks cpus - total)%Z.
      * apply between_max_min.
      * simpl. split; discriminate.
    + simpl. split; discriminate.
  - intros ->. reflexivity.
  - intros idle total -> Hle.
    replace (0 <? sum_ticks cpus - total)%Z with false
      by (symmetry; apply Z.ltb_ge; lia).
    reflexivity.
  - reflexivity.
Qed.

Lemma getSystemCpuUsage_bounded_witness :
  let w := host "linux" ∅ StatfsMissing 5000 in
  exists p,
    fst (getSystemCpuUsage w (initial_state w)) = Ok p
    /\ between 0 100 p
    /\ (lastCpuTimes (initial_state w) = None -> p = ofZ 0)
    /\ (forall idle total,
          lastCpuTimes (initial_state w) = Some (idle, total) ->
          (sum_ticks four_cores <= total)%Z -> p = ofZ 0)
    /\ snd (getSystemCpuUsage w (initial_state w))
       = set_lastCpuTimes (Some (sum_idle four_cores, sum_ticks four_cores))
           (initial_state w).
Proof.
  intros w. apply (getSystemCpuUsage_bounded w (initial_state w) four_cores).
  reflexivity.
Defined.



Lemma truthy_positive (q : Q) : 0 < q -> truthy (Num q) = true.
Proof.
  intros H. simpl. destruct (Qeq_bool q 0) eqn:E; [|reflexivity].
  apply Qeq_bool_eq in E. rewrite E in H. now apply Qlt_irrefl in H.
Qed.

(** X17: on a first call getCpuInfo reports the number of logical cores
    and, as effective cores, the CPU limit of the container whenever
    detection found one, and the number of cores otherwise; the effective
    cores are a positive number unless there is neither a limit nor a
    core.  The model and the speed are those of the first core, or
    "Unknown" and 0 when [os.cpus] is empty. *)
Theorem getCpuInfo_effective_cores (w : world) (st : state) (cpus : list cpu) :
  containerInfo st = None ->
  os_cpus w = Ok cpus ->
  fst (getCpuInfo w st)
  = Ok {| cores := Z.of_nat (length cpus);
          effectiveCores :=
            match cpuLimit (detect w) with
            | Some l => l
            | None => ofZ (Z.of_nat (length cpus))
            end;
          c_model := match cpus with c :: _ => model c | [] => "Unknown" end;
          c_speed := match cpus with c :: _ => speed c | [] => 0%Z end |}
  /\ (cpuLimit (detect w) <> None \/ cpus <> [] ->
      exists q, match cpuLimit (detect w) with
                | Some l => l
                | None => ofZ (Z.of_nat (length cpus))
                end = Num q /\ 0 < q).
Proof.
  intros Hst Hcpus. split.
  - unfold getCpuInfo, mbind, call, run, mret, getContainerCpuLimit.
    rewrite Hcpus, (detectContainerEnvironment_first w st Hst).
    destruct (cpuLimit (detect w)) as [l|] eqn:El; [|reflexivity].
    destruct (cpuLimit_facts w l El) as (_ & (q & -> & Hq) & _).
    unfold falsy. rewrite (truthy_positive q Hq). reflexivity.
  - intros H. destruct (cpuLimit (detect w)) as [l|] eqn:El.
    + destruct (cpuLimit_facts w l El) as (_ & Hq & _). exact Hq.
    + destruct H as [H|H]; [contradiction|].
      exists (inject_Z (Z.of_nat (length cpus))). split; [reflexivity|].
      apply inject_Z_pos. destruct cpus; [contradiction | simpl; lia].
Qed.

Lemma getCpuInfo_effective_cores_witness :
  let w := host "linux" v2_cpu_only StatfsMissing 5000 in
  fst (getCpuInfo w (initial_state w))
  = Ok {| cores := 4; effectiveCores := Num (1 # 2);
          c_model := "Intel Core i7"; c_speed := 2800 |}.
Proof.
  intros w.
  destruct (getCpuInfo_effective_cores w (initial_state w) four_cores)
    as [-> _]; reflexivity.
Defined.

End CpuMore.

(* ================================================================== *)
(** ** Further properties of the aggregator *)

Section AggregatorMore.
Import Sample.
Local Open Scope Q_scope.

Lemma mbind_Ok_inv {A B} (m : M A) (k : A -> M B) st b st' :
  mbind m k st = (Ok b, st') ->
  exists a st1, m st = (Ok a, st1) /\ k a st1 = (Ok b, st').
Proof.
  unfold mbind. destruct (m st) as [[e|a] st1]; [discriminate|]. eauto.
Qed.

(** The steps of a [try] block that runs to its end. *)
Lemma assemble_Ok_inv (w : world) (now : Z) (st st' : state) (m : metrics) :
  assemble w now st = (Ok m, st') ->
  exists mu cpuInfo st3 sp st4,
    process_memoryUsage w = Ok mu
    /\ getCpuInfo w (snd (getCpuPercent w (snd (getSystemMemory w st))))
       = (Ok cpuInfo, st3)
    /\ getSystemCpuUsage w st3 = (Ok sp, st4)
    /\ sys_memory m = fst (getSystemMemory w st)
    /\ nr_cpu m = round1 (fst (getCpuPercent w (snd (getSystemMemory w st))))
    /\ sys_cpu m = cpuInfo
    /\ sys_cpu_percent m = round1 sp
    /\ sys_disk m = getDiskUsage w
    /\ mx_isContainerized m = isContainerized (resolved w st4)
    /\ nr_eventLoopLag m
       = div (round (mul (eventLoopLag (snd (detectContainerEnvironment w st4)))
                         (ofZ 100))) (ofZ 100)
    /\ timestamp m = now
    /\ st' = set_metricsCache {| data := Some m; c_timestamp := now |}
               (snd (detectContainerEnvironment w st4)).
Proof.
  unfold assemble. intros H.
  apply mbind_Ok_inv in H as (mu & s0 & Hmu & H).
  unfold call in Hmu. injection Hmu as Hmu <-.
  apply mbind_Ok_inv in H as (sm0 & s1 & Hsm & H).
  unfold run in Hsm. destruct (getSystemMemory w st) as [sm st1].
  injection Hsm as -> ->.
  apply mbind_Ok_inv in H as (cp0 & s2 & Hcp & H).
  unfold run in Hcp. cbn [snd]. destruct (getCpuPercent w s1) as [cp st2].
  injection Hcp as -> ->.
  apply mbind_Ok_inv in H as (cpuInfo & st3 & Hci & H).
  cbv zeta in H.
  apply mbind_Ok_inv in H as (sp & st4 & Hsp & H).
  apply mbind_Ok_inv in H as (ce0 & s5 & Hce & H).
  unfold run in Hce.
  destruct (detectContainerEnvironment w st4) as [ce st5] eqn:Ece.
  injection Hce as -> ->.
  apply mbind_Ok_inv in H as (lag & st6 & Hlag & H).
  unfold gets in Hlag. injection Hlag as <- <-.
  unfold mbind, puts, mret in H. injection H as <- <-.
  exists mu, cpuInfo, st3, sp, st4. unfold resolved. rewrite Ece.
  cbn [fst snd]. repeat split; auto.
Qed.

Lemma collectMetrics_sampled (w : world) (st st' : state) (m : metrics) :
  cache_hit (Date_now w) st = None ->
  successful w st ->
  collectMetrics w st = (Snapshot m, st') ->
  assemble w (Date_now w) st = (Ok m, st').
Proof.
  intros Hc Hs H. unfold successful in Hs. rewrite Hc in Hs.
  destruct Hs as (m0 & st0 & Ha).
  destruct (collectMetrics_fresh w st st0 m0 Hc Ha) as (E & _).
  rewrite E in H. injection H as <- <-. exact Ha.
Qed.

Lemma round1_between (x : number) :
  between 0 100 x -> between 0 100 (round1 x).
Proof.
  intros H. destruct x as [| |q]; try (destruct H; fail).
  destruct H as [H0 H1]. unfold round1. change (mul (Num q) (ofZ 10)) with (fin (q * inject_Z 10)).
  rewrite round_fin, div_ofZ by discriminate. unfold fin, between.
  rewrite Qred_correct.
  assert (F0 : (0 <= Qfloor (q * inject_Z 10 + (1 # 2)))%Z).
  { change 0%Z with (Qfloor 0). apply Qfloor_resp_le.
    apply Qle_trans with (q * inject_Z 10).
    - apply Qmult_le_0_compat; [exact H0 | discriminate].
    - rewrite <- Qplus_0_r at 1. apply Qplus_le_r. discriminate. }
  assert (F1 : (Qfloor (q * inject_Z 10 + (1 # 2)) <= 1000)%Z).
  { change 1000%Z with (Qfloor (100 * inject_Z 10 + (1 # 2))).
    apply Qfloor_resp_le. apply Qplus_le_l.
    apply Qmult_le_compat_r; [exact H1 | discriminate]. }
  split.
  - apply Qle_shift_div_l; [reflexivity|]. rewrite Qmult_0_l.
    now apply inject_Z_nonneg.
  - apply Qle_shift_div_r; [reflexivity|].
    rewrite Zle_Qle in F1. exact F1.
Qed.

Lemma getCpuPercent_between (w : world) (st : state) :
  between 0 100 (fst (getCpuPercent w st)).
Proof.
  destruct (Z_le_gt_dec (delta_nanos w st) 0) as [H|H].
  - rewrite getCpuPercent_guard by exact H. simpl. split; discriminate.
  - rewrite getCpuPercent_sample by lia. simpl.
    apply between_clamp. discriminate.
Qed.

Lemma getSystemCpuUsage_between (w : world) (st st' : state) (p : number) :
  getSystemCpuUsage w st = (Ok p, st') -> between 0 100 p.
Proof.
  destruct (os_cpus w) as [e|cpus] eqn:E.
  - unfold getSystemCpuUsage, mbind, call. rewrite E. discriminate.
  - rewrite (getSystemCpuUsage_Ok w st cpus E). intros [= <- _].
    destruct (lastCpuTimes st) as [[idle total]|].
    + destruct (0 <? sum_ticks cpus - total)%Z.
      * apply between_max_min.
      * simpl. split; discriminate.
    + simpl. split; discriminate.
Qed.

(** X18: in every snapshot that a call assembles, the CPU percentage of
    the process and the CPU percentage of the system, each rounded to one
    decimal, lie between 0 and 100. *)
Theorem snapshot_cpu_percentages_bounded
    (w : world) (st st' : state) (m : metrics) :
  cache_hit (Date_now w) st = None ->
  successful w st ->
  collectMetrics w st = (Snapshot m, st') ->
  between 0 100 (nr_cpu m) /\ between 0 100 (sys_cpu_percent m).
Proof.
  intros Hc Hs H. pose proof (collectMetrics_sampled w st st' m Hc Hs H) as Ha.
  apply assemble_Ok_inv in Ha
    as (mu & cpuInfo & st3 & sp & st4 & _ & _ & Hsp & _ & Hcpu & _ & Hsys & _).
  rewrite Hcpu, Hsys. split; apply round1_between.
  - apply getCpuPercent_between.
  - exact (getSystemCpuUsage_between w st3 st4 sp Hsp).
Qed.

Lemma snapshot_cpu_percentages_bounded_witness :
  let w := host "linux" ∅ StatfsMissing 5000 in
  exists m st',
    collectMetrics w (initial_state w) = (Snapshot m, st')
    /\ between 0 100 (nr_cpu m) /\ between 0 100 (sys_cpu_percent m).
Proof.
  intros w.
  destruct (assemble_Ok w 5000 (initial_state w) _ _ eq_refl eq_refl)
    as (m & st' & Ha).
  assert (Hc : cache_hit (Date_now w) (initial_state w) = None)
    by reflexivity.
  destruct (collectMetrics_fresh w _ st' m Hc Ha) as (E & _).
  exists m, st'. split; [exact E|].
  apply (snapshot_cpu_percentages_bounded w (initial_state w) st' m).
  - exact Hc.
  - unfold successful. rewrite Hc. eauto.
  - exact E.
Defined.

(** Detection leaves its answer in the state, and no sampler changes what
    detection answers. *)
Lemma containerInfo_after_detect (w : world) (st : state) :
  containerInfo (snd (detectContainerEnvironment w st)) = Some (resolved w st).
Proof.
  unfold resolved, detectContainerEnvironment.
  destruct (containerInfo st) eqn:E; simpl; [exact E | reflexivity].
Qed.

Lemma resolved_getContainerMemory (w : world) (st : state) :
  containerInfo (snd (getContainerMemory w st)) = Some (resolved w st).
Proof.
  unfold getContainerMemory.
  pose proof (containerInfo_after_detect w st) as H. unfold resolved in *.
  destruct (detectContainerEnvironment w st) as [info st1]. simpl in *.
  destruct (negb (isContainerized info) || falsy (memoryLimit info));
    [exact H|].
  match goal with
  | |- context [match ?u with Throws _ => _ | Ok _ => _ end] => destruct u
  end; exact H.
Qed.

Lemma resolved_getSystemMemory (w : world) (st : state) :
  containerInfo (snd (getSystemMemory w st)) = Some (resolved w st).
Proof.
  unfold getSystemMemory. pose proof (resolved_getContainerMemory w st) as H.
  destruct (getContainerMemory w st) as [[b|] st1]; exact H.
Qed.

Lemma containerInfo_getCpuPercent (w : world) (st : state) :
  containerInfo (snd (getCpuPercent w st)) = containerInfo st.
Proof.
  unfold getCpuPercent. cbv zeta.
  match goal with |- context [if ?b then _ else _] => destruct b end;
    reflexivity.
Qed.

Lemma containerInfo_getCpuInfo (w : world) (st st' : state) (c : cpu_info)
    (ci : ContainerInfo) :
  containerInfo st = Some ci ->
  getCpuInfo w st = (Ok c, st') -> containerInfo st' = Some ci.
Proof.
  intros Hci. unfold getCpuInfo, mbind, call, run, mret, getContainerCpuLimit,
    detectContainerEnvironment.
  rewrite Hci. destruct (os_cpus w); [discriminate|].
  now intros [= _ <-].
Qed.

Lemma containerInfo_getSystemCpuUsage (w : world) (st st' : state) (p : number) :
  getSystemCpuUsage w st = (Ok p, st') -> containerInfo st' = containerInfo st.
Proof.
  unfold getSystemCpuUsage, mbind, call, gets, puts, mret.
  destruct (os_cpus w); [discriminate|]. now intros [= _ <-].
Qed.

(** After a call that assembled a snapshot the state holds the record of
    detection, and the snapshot carries its flag. *)
Lemma assemble_containerInfo (w : world) (now : Z) (st st' : state) (m : metrics) :
  assemble w now st = (Ok m, st') ->
  containerInfo st' = Some (resolved w st)
  /\ mx_isContainerized m = isContainerized (resolved w st).
Proof.
  intros Ha. apply assemble_Ok_inv in Ha
    as (mu & cpuInfo & st3 & sp & st4 & _ & Hci & Hsp & _ & _ & _ & _ & _
        & Hmx & _ & _ & ->).
  pose proof (resolved_getSystemMemory w st) as H1.
  rewrite <- (containerInfo_getCpuPercent w) in H1.
  pose proof (containerInfo_getCpuInfo w _ _ _ _ H1 Hci) as H3.
  rewrite <- (containerInfo_getSystemCpuUsage w _ _ _ Hsp) in H3.
  assert (Hr : resolved w st4 = resolved w st).
  { unfold resolved at 1, detectContainerEnvironment. now rewrite H3. }
  split.
  - cbn [containerInfo set_metricsCache].
    rewrite containerInfo_after_detect. now rewrite Hr.
  - now rewrite Hmx, Hr.
Qed.

(** X19: detection is not repeated between snapshots.  Once a call has
    assembled a snapshot, every later call that assembles one reports the
    same isContainerized, in whatever environment it runs, as long as the
    container record in the state is the one the first call left. *)
Theorem container_flag_is_stable
    (w1 w2 : world) (st st1 st1' st2 : state) (m1 m2 : metrics) :
  cache_hit (Date_now w1) st = None ->
  successful w1 st ->
  collectMetrics w1 st = (Snapshot m1, st1) ->
  containerInfo st1' = containerInfo st1 ->
  cache_hit (Date_now w2) st1' = None ->
  successful w2 st1' ->
  collectMetrics w2 st1' = (Snapshot m2, st2) ->
  mx_isContainerized m2 = mx_isContainerized m1
  /\ containerInfo st2 = containerInfo st1.
Proof.
  intros Hc1 Hs1 H1 Hsame Hc2 Hs2 H2.
  apply (collectMetrics_sampled _ _ _ _ Hc1 Hs1) in H1.
  apply (collectMetrics_sampled _ _ _ _ Hc2 Hs2) in H2.
  apply assemble_containerInfo in H1 as [Hi1 Hm1].
  apply assemble_containerInfo in H2 as [Hi2 Hm2].
  assert (Hr : resolved w2 st1' = resolved w1 st).
  { unfold resolved at 1, detectContainerEnvironment.
    now rewrite Hsame, Hi1. }
  rewrite Hm2, Hm1, Hi2, Hi1, Hr. auto.
Qed.

Lemma container_flag_is_stable_witness :
  let w1 := host "linux" v2_cpu_only StatfsMissing 5000 in
  let w2 := host "linux" ∅ StatfsMissing 9000 in
  exists m1 st1 m2 st2,
    collectMetrics w1 (initial_state w1) = (Snapshot m1, st1)
    /\ collectMetrics w2 st1 = (Snapshot m2, st2)
    /\ mx_isContainerized m1 = true
    /\ mx_isContainerized m2 = mx_isContainerized m1
    /\ containerInfo st2 = containerInfo st1.
Proof.
  intros w1 w2.
  destruct (assemble_Ok w1 5000 (initial_state w1) _ _ eq_refl eq_refl)
    as (m1 & st1 & Ha1).
  assert (Hc1 : cache_hit (Date_now w1) (initial_state w1) = None)
    by reflexivity.
  destruct (collectMetrics_fresh w1 _ st1 m1 Hc1 Ha1) as (E1 & _ & Hm1 & Hs1).
  assert (Hc2 : cache_hit (Date_now w2) st1 = None).
  { unfold cache_hit. rewrite Hm1, Hs1. reflexivity. }
  destruct (assemble_Ok w2 9000 st1 _ _ eq_refl eq_refl) as (m2 & st2 & Ha2).
  destruct (collectMetrics_fresh w2 _ st2 m2 Hc2 Ha2) as (E2 & _).
  exists m1, st1, m2, st2.
  split; [exact E1|]. split; [exact E2|]. split.
  - destruct (assemble_containerInfo _ _ _ _ _ Ha1) as [_ ->]. reflexivity.
  - apply (container_flag_is_stable w1 w2 (initial_state w1) st1 st1 st2);
      auto.
    + unfold successful. rewrite Hc1. eauto.
    + unfold successful. rewrite Hc2. eauto.
Defined.

(** X20: when [process.memoryUsage] throws, no sampler has run yet:
    collectMetrics hands back the snapshot of the cache, or the object
    that holds the message, and the whole state is as it was. *)
Theorem memoryUsage_failure_changes_nothing
    (w : world) (st : state) (e : string) :
  cache_hit (Date_now w) st = None ->
  process_memoryUsage w = Throws e ->
  collectMetrics w st
  = (match data (metricsCache st) with
     | Some d => Snapshot d
     | None => ErrorObject e
     end, st).
Proof.
  intros Hc He. unfold collectMetrics. rewrite Hc.
  unfold assemble, mbind, call. rewrite He. reflexivity.
Qed.

Lemma memoryUsage_failure_changes_nothing_witness :
  let w := with_memoryUsage (Throws "Test error")
             (host "linux" ∅ StatfsMissing 5000) in
  collectMetrics w (initial_state w)
  = (ErrorObject "Test error", initial_state w).
Proof.
  intros w.
  apply (memoryUsage_failure_changes_nothing w (initial_state w) "Test error");
    reflexivity.
Defined.

(** X21: a failed call is atomic for the cache only.  When [os.cpus]
    throws, getSystemMemory and getCpuPercent have run before it: the
    caller gets the fallback with the message, the cache and the settings
    are as they were, but the CPU baseline has moved to the readings of
    this call. *)
Theorem cpus_failure_moves_cpu_baseline (w : world) (st : state)
    (mu : memory_usage) (e : string) :
  cache_hit (Date_now w) st = None ->
  process_memoryUsage w = Ok mu ->
  os_cpus w = Throws e ->
  (0 < delta_nanos w st)%Z ->
  fst (collectMetrics w st)
  = match data (metricsCache st) with
    | Some d => Snapshot d
    | None => ErrorObject e
    end
  /\ metricsCache (snd (collectMetrics w st)) = metricsCache st
  /\ lastCpuUsage (snd (collectMetrics w st)) = process_cpuUsage_after w
  /\ lastCpuTime (snd (collectMetrics w st)) = process_hrtime_after w.
Proof.
  intros Hc Hmu He Hd. unfold collectMetrics. rewrite Hc.
  unfold assemble, getCpuInfo, mbind, call, run. rewrite Hmu, He.
  pose proof (getSystemMemory_frame w st) as [Hcache _].
  assert (Hbase : lastCpuUsage (snd (getSystemMemory w st)) = lastCpuUsage st
                  /\ lastCpuTime (snd (getSystemMemory w st)) = lastCpuTime st).
  { unfold getSystemMemory, getContainerMemory, detectContainerEnvironment.
    destruct (containerInfo st); cbn [fst snd];
      repeat match goal with
             | |- context [if ?b then _ else _] => destruct b
             | |- context [match ?u with Throws _ => _ | Ok _ => _ end] =>
                 destruct u
             | |- context [match cgroupVersion ?i with _ => _ end] =>
                 destruct (cgroupVersion i) as [[|]|]
             end; split; reflexivity. }
  destruct (getSystemMemory w st) as [sm st1]. cbn [fst snd] in *.
  assert (Hd1 : (0 < delta_nanos w st1)%Z).
  { unfold delta_nanos in *. destruct Hbase as [_ ->]. exact Hd. }
  rewrite (getCpuPercent_sample w st1 Hd1). cbn [fst snd].
  cbn [metricsCache lastCpuUsage lastCpuTime set_cpuBaseline].
  rewrite Hcache. auto.
Qed.

Lemma cpus_failure_moves_cpu_baseline_witness :
  let w := with_cpus (Throws "cpus") (host "linux" ∅ StatfsMissing 5000) in
  let st := initial_state (host "linux" ∅ StatfsMissing 0) in
  fst (collectMetrics w st) = ErrorObject "cpus"
  /\ metricsCache (snd (collectMetrics w st)) = metricsCache st
  /\ lastCpuUsage (snd (collectMetrics w st)) = {| user := 701; system := 90 |}
  /\ lastCpuTime (snd (collectMetrics w st)) = 6000002000%Z.
Proof.
  intros w st.
  apply (cpus_failure_moves_cpu_baseline w st
           {| rss := 104857600; heapTotal := 83886080; heapUsed := 62914560;
              external := 5242880; arrayBuffers := Some 2097152%Z |} "cpus");
    reflexivity.
Defined.

End AggregatorMore.
(* ================================================================== *)
(** ** Further properties of the settings handler *)

Section SettingsMore.
Import Sample.

Lemma digits_string_of_uint (d : Decimal.uint) (acc : option Z) :
  d <> Decimal.Nil ->
  digits 10 (NilEmpty.string_of_uint d) acc
  = Some (uint_value d (default 0 acc)).
Proof.
  intros Hd.
  assert (H : forall d a, digits 10 (NilEmpty.string_of_uint d) (Some a)
                          = Some (uint_value d a)).
  { clear. induction d; intros a; simpl; try apply IHd. reflexivity. }
  destruct d; try contradiction; simpl; apply H.
Qed.

Lemma uint_value_acc (d : Decimal.uint) (acc : positive) :
  uint_value d (Z.pos acc) = Z.pos (Pos.of_uint_acc d acc).
Proof.
  revert acc. induction d; intros acc; simpl; try reflexivity;
    rewrite <- IHd; f_equal; lia.
Qed.

Lemma uint_value_0 (d : Decimal.uint) :
  uint_value d 0 = Z.of_N (Pos.of_uint d).
Proof.
  induction d; simpl; try reflexivity; try exact IHd;
    apply (uint_value_acc d).
Qed.

Lemma to_uint_nonnil (p : positive) : Pos.to_uint p <> Decimal.Nil.
Proof.
  intros H. pose proof (DecimalPos.Unsigned.of_to p) as E. rewrite H in E. discriminate.
Qed.

Lemma digits_to_uint (p : positive) :
  digits 10 (NilEmpty.string_of_uint (Pos.to_uint p)) None = Some (Z.pos p).
Proof.
  rewrite digits_string_of_uint by apply to_uint_nonnil.
  simpl default. rewrite uint_value_0, DecimalPos.Unsigned.of_to. reflexivity.
Qed.

Lemma string_of_uint_digits (d : Decimal.uint) :
  all_chars is_digit (NilEmpty.string_of_uint d) = true.
Proof. induction d; simpl; auto. Qed.

(** The head of a numeral for [parseInt] with one argument: digits never
    spell the prefix [0x]. *)
Lemma numeral_radix (s : string) :
  all_chars is_digit s = true ->
  match @None Z, s with
  | None, String "0"%char (String "x"%char s')
  | None, String "0"%char (String "X"%char s') => (16, s')
  | None, _ => (10, s)
  | Some r, _ => (r, s)
  end = (10, s).
Proof.
  destruct s as [|c s]; [reflexivity|]. simpl. intros H.
  apply andb_true_iff in H as [Hc Hs].
  destruct c as [[] [] [] [] [] [] [] []]; try discriminate Hc; try reflexivity.
  destruct s as [|c2 s]; [reflexivity|]. simpl in Hs.
  apply andb_true_iff in Hs as [Hc2 _].
  destruct c2 as [[] [] [] [] [] [] [] []]; try discriminate Hc2; reflexivity.
Qed.

Lemma parseInt_numeral_string (s : string) (n : Z) (radix : option Z) :
  radix = None \/ radix = Some 10 ->
  numeral s ->
  digits 10 s None = Some n ->
  parseInt s radix = ofZ n
  /\ parseInt (String "-"%char s) radix = ofZ (- n).
Proof.
  intros Hr [Hall Hne] Hd. destruct s as [|c s]; [contradiction|].
  pose proof Hall as Hall'. simpl in Hall'.
  apply andb_true_iff in Hall' as [Hc _].
  destruct (is_digit_head c s Hc) as [Ht Hs].
  assert (HR : match radix, String c s with
               | None, String "0"%char (String "x"%char s')
               | None, String "0"%char (String "X"%char s') => (16, s')
               | None, _ => (10, String c s)
               | Some r, _ => (r, String c s)
               end = (10, String c s)).
  { destruct Hr as [->| ->]; [exact (numeral_radix _ Hall) | reflexivity]. }
  split.
  - unfold parseInt. rewrite Ht, Hs, HR, Hd. now rewrite Z.mul_1_l.
  - unfold parseInt. cbn [trimStart].
    change (is_space "-"%char) with false. cbv beta iota.
    cbv beta iota in HR. rewrite HR, Hd. f_equal; lia.
Qed.

(** [parseInt(String(z))] is [z], with one argument and with radix 10. *)
Lemma parseInt_ofInt (z : Z) (radix : option Z) :
  radix = None \/ radix = Some 10 -> parseInt (ofInt z) radix = ofZ z.
Proof.
  intros Hr. destruct z as [|p|p].
  - destruct Hr as [->| ->]; reflexivity.
  - unfold ofInt. cbn [Z.to_int NilZero.string_of_int].
    assert (E : NilZero.string_of_uint (Pos.to_uint p)
                = NilEmpty.string_of_uint (Pos.to_uint p)).
    { pose proof (to_uint_nonnil p). now destruct (Pos.to_uint p). }
    rewrite E.
    apply (parseInt_numeral_string _ (Z.pos p) radix Hr); [|apply digits_to_uint].
    split; [apply string_of_uint_digits|].
    pose proof (to_uint_nonnil p). now destruct (Pos.to_uint p).
  - unfold ofInt. cbn [Z.to_int NilZero.string_of_int].
    assert (E : NilZero.string_of_uint (Pos.to_uint p)
                = NilEmpty.string_of_uint (Pos.to_uint p)).
    { pose proof (to_uint_nonnil p). now destruct (Pos.to_uint p). }
    rewrite E.
    apply (parseInt_numeral_string _ (Z.pos p) radix Hr); [|apply digits_to_uint].
    split; [apply string_of_uint_digits|].
    pose proof (to_uint_nonnil p). now destruct (Pos.to_uint p).
Qed.

(** X22: a whole number that a double holds exactly (at most 2^53 in
    size), posted as refreshInterval, is stored as it is, as a JSON number
    or as the string of its decimal numeral, negative numbers included;
    only 0 is replaced by the default 2000.  The same holds for
    paneFontSize with the default 12. *)
Theorem posted_integer_is_stored (body : gmap string jsval) (s : Settings)
    (n : Z) (v : jsval) :
  (Z.abs n <= 9007199254740992)%Z ->
  v = JNumber n \/ v = JString (ofInt n) ->
  (body !! "refreshInterval" = Some v ->
   refreshInterval (update_settings body s)
   = ofZ (if (n =? 0)%Z then 2000 else n))
  /\ (body !! "paneFontSize" = Some v ->
      paneFontSize (update_settings body s)
      = ofZ (if (n =? 0)%Z then 12 else n)).
Proof.
  intros _ Hv.
  assert (E : forall d, parseInt_or v d = ofZ (if (n =? 0)%Z then d else n)).
  { intros d. unfold parseInt_or.
    assert (Es : toString v = ofInt n) by (destruct Hv as [->| ->]; reflexivity).
    rewrite Es, parseInt_ofInt by now left.
    rewrite truthy_ofZ. now destruct (n =? 0)%Z. }
  split; intros Hb; unfold update_settings; simpl; rewrite Hb; apply E.
Qed.

Lemma posted_integer_is_stored_witness :
  refreshInterval
    (update_settings {[ "refreshInterval" := JNumber 500 ]} default_settings)
  = ofZ 500
  /\ paneFontSize
       (update_settings {[ "paneFontSize" := JString "0" ]} default_settings)
     = ofZ 12.
Proof.
  split.
  - apply (posted_integer_is_stored _ default_settings 500 (JNumber 500));
      [discriminate | now left | reflexivity].
  - apply (posted_integer_is_stored _ default_settings 0 (JString "0"));
      [discriminate | now right | reflexivity].
Defined.






End SettingsMore.

(* ================================================================== *)
(** ** The lag gauge and the disk block *)

Section GaugeAndDisk.
Import Sample.
Local Open Scope Q_scope.









(** X26: for statistics of a file system, that is a block size that is
    not negative and no more free blocks than blocks, the disk block has
    used = (blocks - bfree) * bsize and a usedPercent between 0 and 100;
    on an empty file system (no block, or blocks of size 0) usedPercent is
    0 and nothing is divided. *)
Theorem disk_block_bounds (w : world) (stats : statfs_stats) :
  fs_statfs w = StatfsOk stats ->
  (0 <= bsize stats)%Z ->
  (0 <= bfree stats <= blocks stats)%Z ->
  d_used (getDiskUsage w) = ofZ ((blocks stats - bfree stats) * bsize stats)
  /\ between 0 100 (d_usedPercent (getDiskUsage w))
  /\ ((blocks stats * bsize stats = 0)%Z ->
      d_usedPercent (getDiskUsage w) = ofZ 0).
Proof.
  intros Hs Hb Hf. unfold getDiskUsage. rewrite Hs. cbv zeta.
  cbn [d_used d_usedPercent]. rewrite !mul_ofZ, sub_ofZ, gt_ofZ.
  split; [f_equal; lia|].
  destruct (0 <? blocks stats * bsize stats)%Z eqn:E.
  - apply Z.ltb_lt in E. split; [|lia].
    rewrite percent_value by lia. unfold fin, between. rewrite Qred_correct.
    apply percent1_range; nia.
  - split; [simpl; split; discriminate | reflexivity].
Qed.

Lemma disk_block_bounds_witness :
  let w := host "linux" ∅ (StatfsOk stats_of_test) 5000 in
  d_used (getDiskUsage w) = ofZ ((1000000 - 500000) * 4096)
  /\ between 0 100 (d_usedPercent (getDiskUsage w))
  /\ ((1000000 * 4096 = 0)%Z -> d_usedPercent (getDiskUsage w) = ofZ 0).
Proof.
  intros w. apply (disk_block_bounds w stats_of_test).
  - reflexivity.
  - discriminate.
  - split; discriminate.
Defined.

End GaugeAndDisk.
